(** * sheetdb: CRUD adapters over tabular storage

    A shallow embedding of the record model ([sheetdb/interfaces/model.py])
    and of the storage adapters ([sheetdb/backends/csv.py],
    [sheetdb/backends/excel.py], [src/backends/gsheet.py]), and the
    properties of the specification checked against it.

    Python dictionaries keep insertion order and the adapters depend on it
    (the header row is [list(mapped_rows[0].keys())]), so a [dict] is an
    association list with the update-in-place behaviour of Python.  The
    process-wide [cache_headers] dictionaries and the file system are only
    ever looked up by key and are finite maps.

    A method is a function on the world it reads and writes, in a small
    state-and-exception monad.  The libraries the adapters call (the [csv]
    module, pydantic, openpyxl, gspread) are outside the repository: a file
    is the rows its reader yields, a model type carries its validation as a
    function, and worksheets are grids with the few operations the adapters
    use. *)

From Stdlib Require Import Ascii String.
From stdpp Require Import base strings list gmap pretty.

(** ** Python values *)

(** The scalar values that travel between a model and a cell: [None],
    integers and texts (a text is its UTF-8 bytes). *)
Inductive value : Type :=
  | VNone
  | VInt (z : Z)
  | VStr (s : string).

#[global] Instance value_eq_dec : EqDecision value.
Proof. solve_decision. Defined.

(** [a == b] on scalars: no coercion between [int] and [str]. *)
Definition py_eq (a b : value) : bool := bool_decide (a = b).

(** What [csv.writer] writes for a cell: [None] is the empty field, any
    other value is its [str()]. *)
Definition csv_str (v : value) : string :=
  match v with
  | VNone => ""
  | VInt z => pretty z
  | VStr s => s
  end.

(** The texts of the cells of a row that is written. *)
Definition csv_row (row : list value) : list string := csv_str <$> row.

(** ** Exceptions and the state-and-exception monad *)

Inductive exn : Type :=
  | NotFoundError
  | ValueError
  | TypeError
  | AttributeError
  | APIError.

#[global] Instance exn_eq_dec : EqDecision exn.
Proof. solve_decision. Defined.

Inductive result (A : Type) : Type :=
  | Ok (a : A)
  | Raise (e : exn).
Arguments Ok {A} a.
Arguments Raise {A} e.

Definition result_bind {A B} (r : result A) (f : A → result B) : result B :=
  match r with
  | Ok a => f a
  | Raise e => Raise e
  end.

(** A method call runs on a world [W] and either returns or raises; the
    effects that happened before a [raise] stay. *)
Definition M (W A : Type) : Type := W → result A * W.

Definition ret {W A} (a : A) : M W A := λ w, (Ok a, w).
Definition raise {W A} (e : exn) : M W A := λ w, (Raise e, w).
Definition bind {W A B} (m : M W A) (f : A → M W B) : M W B :=
  λ w, match m w with
       | (Ok a, w') => f a w'
       | (Raise e, w') => (Raise e, w')
       end.
Definition gets {W A} (f : W → A) : M W A := λ w, (Ok (f w), w).
Definition modify {W} (f : W → W) : M W () := λ w, (Ok (), f w).
Definition lift {W A} (r : result A) : M W A := λ w, (r, w).

Declare Scope py_scope.
Delimit Scope py_scope with py.
Notation "x <- m ;; k" := (bind m (λ x, k))
  (at level 100, m at next level, right associativity) : py_scope.
Notation "m ;;; k" := (bind m (λ _, k))
  (at level 100, right associativity) : py_scope.

Ltac unfold_monad := unfold bind, gets, modify, lift, ret, raise.

(** [for x in xs: body x] *)
Fixpoint for_ {W A} (xs : list A) (body : A → M W ()) : M W () :=
  match xs with
  | [] => ret ()
  | x :: xs' => bind (body x) (λ _, for_ xs' body)
  end.

(** ** Insertion-ordered dictionaries *)

Module Dict.
Section dict.
Context {K V : Type} `{EqDecision K}.

(** [d.get(k)] *)
Fixpoint get (d : list (K * V)) (k : K) : option V :=
  match d with
  | [] => None
  | (k', v) :: d' => if decide (k' = k) then Some v else get d' k
  end.

(** [d.get(k, dflt)] *)
Definition get_default (d : list (K * V)) (k : K) (dflt : V) : V :=
  default dflt (get d k).

(** [d[k] = v]: an existing key keeps its position, a new key goes last. *)
Fixpoint set (d : list (K * V)) (k : K) (v : V) : list (K * V) :=
  match d with
  | [] => [(k, v)]
  | (k', v') :: d' =>
      if decide (k' = k) then (k, v) :: d' else (k', v') :: set d' k v
  end.

Definition keys (d : list (K * V)) : list K := d.*1.
Definition values (d : list (K * V)) : list V := d.*2.

(** [dict(pairs)] and the dictionary comprehensions: the pairs are stored
    one after the other. *)
Definition of_pairs (ps : list (K * V)) : list (K * V) :=
  foldl (λ acc kv, set acc kv.1 kv.2) [] ps.
End dict.

(** [{f(k): v for k, v in d.items()}] *)
Definition map_keys {K K' V} `{EqDecision K'} (f : K → K')
    (d : list (K * V)) : list (K' * V) :=
  of_pairs ((λ kv, (f kv.1, kv.2)) <$> d).

(** [{v: k for k, v in d.items()}] *)
Definition invert {K V} `{EqDecision V} (d : list (K * V)) : list (V * K) :=
  of_pairs ((λ kv, (kv.2, kv.1)) <$> d).
End Dict.

Abbreviation dict K V := (list (K * V)) (only parsing).

(** ** The record model (sheetdb/interfaces/model.py) *)

(** An instance of a [SheetModel] subclass: its sheet name, the field map
    its [get_field_map()] returns, and its declared fields with their values
    in declaration order ([model_dump()]). *)
Record SheetModel : Type := mkSheetModel {
  get_sheet_name : string;
  get_field_map : dict string string;
  model_dump : dict string value;
}.

#[global] Instance SheetModel_eq_dec : EqDecision SheetModel.
Proof. solve_decision. Defined.

(** A [SheetModel] subclass, as the adapters receive it in [model:
    Type[SheetModel]].  [generate_field_map] calls [cls.get_field_map()] on
    the class, so the class provides it as a classmethod (as every model of
    the examples does): [class_field_map].  [validate] is the validation
    pydantic runs when the class is called with keyword arguments: it returns the declared fields with
    their validated values, or fails. *)
Record ModelType : Type := mkModelType {
  get_class_sheet_name : string;
  class_field_map : dict string string;
  validate : dict string value → option (dict string value);
}.

(** The call of the class with the keyword arguments [kwargs]. *)
Definition model_new (cls : ModelType) (kwargs : dict string value)
    : option SheetModel :=
  mkSheetModel (get_class_sheet_name cls) (class_field_map cls)
    <$> validate cls kwargs.

(** [SheetModel.generate_field_map]: [{v: k for k, v in field_map.items()}] *)
Definition generate_field_map (cls : ModelType) : dict string string :=
  Dict.invert (class_field_map cls).

(** [getattr(item, k, dflt)] on a declared field name or an unknown name. *)
Definition getattr (item : SheetModel) (k : string) (dflt : value) : value :=
  Dict.get_default (model_dump item) k dflt.

(** [setattr(item, k, v)]: pydantic assigns a declared field without
    validating it and refuses a name that is not a field. *)
Definition setattr (item : SheetModel) (k : string) (v : value)
    : result SheetModel :=
  if bool_decide (k ∈ Dict.keys (model_dump item)) then
    Ok (mkSheetModel (get_sheet_name item) (get_field_map item)
          (Dict.set (model_dump item) k v))
  else Raise ValueError.

(** [for k, v in update_data.items(): setattr(item, k, v)] *)
Fixpoint setattrs (item : SheetModel) (update_data : dict string value)
    : result SheetModel :=
  match update_data with
  | [] => Ok item
  | (k, v) :: rest => result_bind (setattr item k v) (λ item', setattrs item' rest)
  end.

(** [all(getattr(item, k, None) == v for k, v in filters.items())] *)
Definition matches (item : SheetModel) (filters : dict string value) : bool :=
  forallb (λ kv, py_eq (getattr item kv.1 VNone) kv.2) filters.

(** The truth value of an optional dictionary ([if filters:]). *)
Definition truthy {K V} (d : option (dict K V)) : bool :=
  match d with
  | Some (_ :: _) => true
  | _ => false
  end.

(** ** The delimited-text adapter (sheetdb/backends/csv.py) *)

Module Csv.

(** A file is the sequence of rows [csv.reader] yields for it ([;] as the
    delimiter, minimal quoting): a blank line is the row [[]], an absent
    file is absent from [fs].  [cache_headers] is the module's global
    dictionary, keyed by file path. *)
Record world : Type := mkWorld {
  fs : gmap string (list (list string));
  cache_headers : gmap string (list string);
}.

Record CsvDB : Type := mkCsvDB { file_path : string }.

Definition set_fs (f : gmap string (list (list string)) →
                       gmap string (list (list string))) (w : world) : world :=
  mkWorld (f (fs w)) (cache_headers w).

Definition set_cache (f : gmap string (list string) →
                          gmap string (list string)) (w : world) : world :=
  mkWorld (fs w) (f (cache_headers w)).

(** [next(reader, [])] *)
Definition next_row (rows : list (list string)) : list string :=
  default [] (head rows).

Definition _get_headers (self : CsvDB) : M world (list string) := λ w,
  match cache_headers w !! file_path self with
  | Some headers => (Ok headers, w)
  | None =>
      match fs w !! file_path self with
      | None => (Ok [], w)
      | Some rows =>
          let headers := next_row rows in
          (Ok headers, set_cache <[file_path self := headers]> w)
      end
  end.

(** Mode ["w"]: the file is replaced by the header line and the rows. *)
Definition _write_rows (self : CsvDB) (headers : list string)
    (rows : list (list value)) : M world () :=
  modify (set_fs <[file_path self := headers :: (csv_row <$> rows)]>).

(** Mode ["a"]: the row goes after the last line; a missing file is created. *)
Definition _append_row (self : CsvDB) (row : list value) : M world () :=
  modify (λ w, set_fs <[file_path self :=
                          default [] (fs w !! file_path self) ++ [csv_row row]]> w).

(** [{field_map.get(k, k): v for k, v in model.model_dump().items()}] *)
Definition mapped_row (field_map : dict string string) (model : SheetModel)
    : dict string value :=
  Dict.map_keys (λ k, Dict.get_default field_map k k) (model_dump model).

(** [[row.get(h, "") for h in headers]] *)
Definition project (headers : list string) (row : dict string value)
    : list value :=
  (λ h, Dict.get_default row h (VStr "")) <$> headers.

Definition insert_many (self : CsvDB) (models : list SheetModel) : M world () :=
  match models with
  | [] => ret ()
  | first :: _ =>
      let field_map := get_field_map first in
      let mapped_rows := mapped_row field_map <$> models in
      (headers <- _get_headers self;;
       headers <- (if bool_decide (headers = []) then
                     let headers := Dict.keys (mapped_row field_map first) in
                     (modify (set_cache <[file_path self := headers]>);;;
                      _write_rows self headers [];;;
                      ret headers)
                   else ret headers);;
       for_ mapped_rows (λ row, _append_row self (project headers row)))%py
  end.

Definition insert (self : CsvDB) (model : SheetModel) : M world () :=
  insert_many self [model].

(** One dictionary of [csv.DictReader].  Its keys are the field names, and
    the key [None] ([restkey]) when the row is longer than the header; the
    entry under [None] is kept apart in [rest], the other entries are in
    [cells].  A short row is completed with [None] ([restval]). *)
Record dict_row : Type := mkDictRow {
  cells : dict string value;
  rest : option (list string);
}.

Definition DictReader_row (fieldnames row : list string) : dict_row :=
  let d := Dict.of_pairs (zip fieldnames (VStr <$> row)) in
  let lf := length fieldnames in
  let lr := length row in
  if bool_decide (lf < lr) then mkDictRow d (Some (drop lf row))
  else if bool_decide (lr < lf) then
    mkDictRow (foldl (λ d key, Dict.set d key VNone) d (drop lr fieldnames)) None
  else mkDictRow d None.

(** The first row is [fieldnames]; blank rows after it are skipped. *)
Definition DictReader (rows : list (list string)) : list dict_row :=
  match rows with
  | [] => []
  | fieldnames :: data =>
      DictReader_row fieldnames <$> filter (λ row, row ≠ []) data
  end.

(** The call of the class with the keyword arguments
    [mapped_data = {field_map.get(k, k): v for k, v in row.items()}].
    [field_map.get(None, None)] is [None], and a call with the keyword
    [None] raises [TypeError] before the class sees it. *)
Definition parse_row (model : ModelType) (field_map : dict string string)
    (row : dict_row) : option SheetModel :=
  let mapped_data :=
    Dict.map_keys (λ k, Dict.get_default field_map k k) (cells row) in
  match rest row with
  | Some _ => None
  | None => model_new model mapped_data
  end.

(** One turn of the loop of [get_all]: a row that does not parse is logged
    and skipped. *)
Definition get_all_step (model : ModelType) (field_map : dict string string)
    (filters : option (dict string value))
    (data : list SheetModel) (row : dict_row) : list SheetModel :=
  match parse_row model field_map row with
  | None => data
  | Some item =>
      if truthy filters then
        if matches item (default [] filters) then data ++ [item] else data
      else data ++ [item]
  end.

(** [get_all] reads and changes nothing. *)
Definition get_all (self : CsvDB) (model : ModelType)
    (filters : option (dict string value)) (w : world) : list SheetModel :=
  match fs w !! file_path self with
  | None => []
  | Some rows =>
      let field_map := generate_field_map model in
      foldl (get_all_step model field_map filters) [] (DictReader rows)
  end.

(** The first item of [data] that matches, if any. *)
Fixpoint first_match (filters : dict string value) (data : list SheetModel)
    : option SheetModel :=
  match data with
  | [] => None
  | item :: data' =>
      if matches item filters then Some item else first_match filters data'
  end.

Definition get_one (self : CsvDB) (model : ModelType)
    (filters : dict string value) : M world SheetModel :=
  (data <- gets (get_all self model None);;
   match first_match filters data with
   | Some item => ret item
   | None => raise NotFoundError
   end)%py.

(** The loop of [update]: the first matching item is assigned in place (it
    stays in [data]) and the loop breaks.  The result is the item and the
    list after the loop, or [None] when [updated] is still false. *)
Fixpoint update_loop (filters update_data : dict string value)
    (data : list SheetModel) : result (option (SheetModel * list SheetModel)) :=
  match data with
  | [] => Ok None
  | item :: data' =>
      if matches item filters then
        result_bind (setattrs item update_data)
          (λ item', Ok (Some (item', item' :: data')))
      else
        result_bind (update_loop filters update_data data')
          (λ r, Ok (prod_map id (cons item) <$> r))
  end.

(** [[getattr(item, model.generate_field_map().get(h, h), "") for h in headers]] *)
Definition row_of (model : ModelType) (headers : list string)
    (item : SheetModel) : list value :=
  (λ h, getattr item (Dict.get_default (generate_field_map model) h h) (VStr ""))
    <$> headers.

Definition update (self : CsvDB) (model : ModelType)
    (filters update_data : dict string value) : M world SheetModel :=
  (data <- gets (get_all self model None);;
   found <- lift (update_loop filters update_data data);;
   match found with
   | None => raise NotFoundError
   | Some (item, data) =>
       headers <- _get_headers self;;
       _write_rows self headers (row_of model headers <$> data);;;
       ret item
   end)%py.

(** The loop of [delete]: every matching item is left out of [new_data] and
    becomes [deleted_item] in turn. *)
Definition delete_step (filters : dict string value)
    (acc : list SheetModel * option SheetModel) (item : SheetModel)
    : list SheetModel * option SheetModel :=
  if matches item filters then (acc.1, Some item)
  else (acc.1 ++ [item], acc.2).

Definition delete (self : CsvDB) (model : ModelType)
    (filters : dict string value) : M world SheetModel :=
  (data <- gets (get_all self model None);;
   let '(new_data, deleted_item) := foldl (delete_step filters) ([], None) data in
   match deleted_item with
   | None => raise NotFoundError
   | Some deleted_item =>
       headers <- _get_headers self;;
       _write_rows self headers (row_of model headers <$> new_data);;;
       ret deleted_item
   end)%py.

Definition delete_all (self : CsvDB) (model : ModelType) : M world () :=
  (headers <- _get_headers self;;
   if bool_decide (headers = []) then ret ()
   else _write_rows self headers [])%py.

End Csv.

(** ** The remote spreadsheet adapter (src/backends/gsheet.py) *)

(** [chr(n)], as the UTF-8 text of the code point. *)
Definition chr (n : Z) : result string :=
  let byte (z : Z) : ascii := ascii_of_nat (Z.to_nat z) in
  (if bool_decide (n < 0) then Raise ValueError
   else if bool_decide (n < 128) then Ok (String (byte n) "")
   else if bool_decide (n < 2048) then
     Ok (String (byte (192 + n / 64)) (String (byte (128 + n mod 64)) ""))
   else if bool_decide (n < 65536) then
     Ok (String (byte (224 + n / 4096))
           (String (byte (128 + (n / 64) mod 64))
              (String (byte (128 + n mod 64)) "")))
   else if bool_decide (n < 1114112) then
     Ok (String (byte (240 + n / 262144))
           (String (byte (128 + (n / 4096) mod 64))
              (String (byte (128 + (n / 64) mod 64))
                 (String (byte (128 + n mod 64)) ""))))
   else Raise ValueError)%Z.

Module GSheet.

(** A worksheet is the grid of the texts of its cells, row by row; an empty
    cell is the empty text.  The spreadsheet is the collection of its
    worksheets by title.  [_client] tells whether the adapter object has
    authorized yet; [cache_headers] is the module's global dictionary, keyed
    by sheet name. *)
Record world : Type := mkWorld {
  sheets : gmap string (list (list string));
  cache_headers : gmap string (list string);
  _client : bool;
}.

Definition set_sheets (f : gmap string (list (list string)) →
                           gmap string (list (list string))) (w : world) : world :=
  mkWorld (f (sheets w)) (cache_headers w) (_client w).

Definition set_cache (f : gmap string (list string) →
                          gmap string (list string)) (w : world) : world :=
  mkWorld (sheets w) (f (cache_headers w)) (_client w).

(** *** The worksheet operations of gspread the adapter calls

    They belong to the client library; they are described here on the grid,
    after the library's documentation: reads leave out the empty cells at
    the end of a row and the empty rows at the end of the sheet,
    [get_all_values] pads the rows to a common length, appended rows go
    after the last row that has a value, and a range is given in A1
    notation. *)

Fixpoint trim_end {A} (blank : A → bool) (l : list A) : list A :=
  match l with
  | [] => []
  | x :: l' =>
      match trim_end blank l' with
      | [] => if blank x then [] else [x]
      | kept => x :: kept
      end
  end.

Definition blank_cell (c : string) : bool := bool_decide (c = "").
Definition blank_row (r : list string) : bool := forallb blank_cell r.

Definition trim_sheet (ws : list (list string)) : list (list string) :=
  trim_end blank_row (trim_end blank_cell <$> ws).

Definition get_all_values (ws : list (list string)) : list (list string) :=
  let rows := trim_sheet ws in
  let width := foldr (λ r, max (length r)) 0 rows in
  (λ r, r ++ replicate (width - length r) "") <$> rows.

Definition row_values_1 (ws : list (list string)) : list string :=
  default [] (head (trim_sheet ws)).

Definition append_rows (values : list (list value)) (ws : list (list string))
    : list (list string) :=
  trim_sheet ws ++ (csv_row <$> values).

(** A column given by letters, [A] being column 1. *)
Definition letter_of (c : ascii) : option nat :=
  let n := nat_of_ascii c in
  if bool_decide (65 ≤ n ≤ 90) then Some (n - 64)
  else if bool_decide (97 ≤ n ≤ 122) then Some (n - 96)
  else None.

Definition digit_of (c : ascii) : option nat :=
  let n := nat_of_ascii c in
  if bool_decide (48 ≤ n ≤ 57) then Some (n - 48) else None.

Fixpoint a1_row (acc : nat) (s : string) : option nat :=
  match s with
  | EmptyString => Some acc
  | String c s' => d ← digit_of c; a1_row (acc * 10 + d) s'
  end.

(** Letters, then digits: the column and the row of a cell. *)
Fixpoint a1_cell (col : nat) (s : string) : option (nat * nat) :=
  match s with
  | EmptyString => None
  | String c s' =>
      match letter_of c with
      | Some l => a1_cell (col * 26 + l) s'
      | None => if bool_decide (col = 0) then None
                else row ← a1_row 0 s; Some (row, col)
      end
  end.

Fixpoint split_colon (s : string) : option (string * string) :=
  match s with
  | EmptyString => None
  | String ":" s' => Some ("", s')
  | String c s' => prod_map (String c) id <$> split_colon s'
  end.

(** [first:last] as 1-based (row, column) corners. *)
Definition a1_range (s : string) : option ((nat * nat) * (nat * nat)) :=
  ends ← split_colon s;
  first ← a1_cell 0 ends.1;
  last ← a1_cell 0 ends.2;
  Some (first, last).

(** [ws.batch_clear([range])]: the values of the cells of the range are
    removed; a range that is not in A1 notation is refused by the service. *)
Definition batch_clear (range : string) (ws : list (list string))
    : result (list (list string)) :=
  match a1_range range with
  | None => Raise APIError
  | Some ((r1, c1), (r2, c2)) =>
      Ok (imap (λ i row,
            imap (λ j cell,
              if bool_decide (r1 ≤ S i ≤ r2 ∧ c1 ≤ S j ≤ c2) then "" else cell)
              row) ws)
  end.

(** *** The adapter *)

Record GoogleSheetDB : Type := mkGoogleSheetDB { spreadsheet_id : string }.

Definition _get_client (self : GoogleSheetDB) : M world () :=
  modify (λ w, mkWorld (sheets w) (cache_headers w) true).

(** The worksheet object is its title; [headers] is [None] by default. *)
Definition _get_worksheet (self : GoogleSheetDB) (sheet_name : string)
    (headers : option (list string)) : M world string :=
  (_get_client self;;;
   found <- gets (λ w, sheets w !! sheet_name);;
   match found with
   | Some _ => ret sheet_name
   | None =>
       match headers with
       | None => raise ValueError
       | Some headers =>
           modify (set_sheets <[sheet_name := append_rows [VStr <$> headers] []]>);;;
           modify (set_cache <[sheet_name := headers]>);;;
           ret sheet_name
       end
   end)%py.

Definition _get_headers (self : GoogleSheetDB) (ws sheet_name : string)
    : M world (list string) := λ w,
  match cache_headers w !! sheet_name with
  | Some headers => (Ok headers, w)
  | None =>
      let headers := row_values_1 (default [] (sheets w !! ws)) in
      (Ok headers, set_cache <[sheet_name := headers]> w)
  end.

(** [{field_map.get(k, k): v for k, v in m.model_dump().items()}] *)
Definition mapped_row (field_map : dict string string) (m : SheetModel)
    : dict string value :=
  Dict.map_keys (λ k, Dict.get_default field_map k k) (model_dump m).

Definition insert_many (self : GoogleSheetDB) (models : list SheetModel)
    : M world () :=
  match models with
  | [] => ret ()
  | first :: _ =>
      let sheet_name := get_sheet_name first in
      let field_map := get_field_map first in
      let mapped_rows := mapped_row field_map <$> models in
      (ws <- _get_worksheet self sheet_name
               (Some (Dict.keys (mapped_row field_map first)));;
       headers <- _get_headers self ws sheet_name;;
       let values :=
         (λ row, (λ h, Dict.get_default row h (VStr "")) <$> headers)
           <$> mapped_rows in
       modify (set_sheets (λ s, <[ws := append_rows values (default [] (s !! ws))]> s)))%py
  end.

Definition insert (self : GoogleSheetDB) (model : SheetModel) : M world () :=
  insert_many self [model].

(** One turn of the loop of [get_all] over [rows[1:]]. *)
Definition get_all_step (model : ModelType) (headers : list string)
    (filters : option (dict string value))
    (data : list SheetModel) (row : list string) : list SheetModel :=
  let field_map := generate_field_map model in
  let model_data :=
    Dict.of_pairs ((λ hv, (Dict.get_default field_map hv.1 hv.1, VStr hv.2))
                     <$> zip headers row) in
  match model_new model model_data with
  | None => data
  | Some item =>
      if truthy filters then
        if matches item (default [] filters) then data ++ [item] else data
      else data ++ [item]
  end.

Definition get_all (self : GoogleSheetDB) (model : ModelType)
    (filters : option (dict string value)) : M world (list SheetModel) :=
  let sheet_name := get_class_sheet_name model in
  (ws <- _get_worksheet self sheet_name None;;
   headers <- _get_headers self ws sheet_name;;
   rows <- gets (λ w, get_all_values (default [] (sheets w !! ws)));;
   ret (foldl (get_all_step model headers filters) [] (drop 1 rows)))%py.

(** [f"A2:{chr(65 + num_cols - 1)}{len(rows)}"] *)
Definition clear_range (num_cols num_rows : nat) : result string :=
  result_bind (chr (65 + Z.of_nat num_cols - 1))
    (λ c, Ok ("A2:" +:+ c +:+ pretty num_rows)).

Definition delete_all (self : GoogleSheetDB) (model : ModelType) : M world () :=
  let sheet_name := get_class_sheet_name model in
  (ws <- _get_worksheet self sheet_name None;;
   rows <- gets (λ w, get_all_values (default [] (sheets w !! ws)));;
   if bool_decide (length rows ≤ 1) then ret ()
   else
     let num_cols := length (default [] (head rows)) in
     range <- lift (clear_range num_cols (length rows));;
     sheet <- gets (λ w, default [] (sheets w !! ws));;
     cleared <- lift (batch_clear range sheet);;
     modify (set_sheets <[ws := cleared]>))%py.

End GSheet.

(** ** The local workbook adapter (sheetdb/backends/excel.py) *)

(** [int(v)]: an [int] is itself; a text is read as a decimal numeral:
    white space around it is dropped, a sign may come first, and single
    underscores may separate digits; [None] is a [TypeError]. *)
Definition py_digit (c : ascii) : option Z :=
  let n := Z.of_nat (nat_of_ascii c) in
  if bool_decide (48 ≤ n ≤ 57)%Z then Some (n - 48)%Z else None.

Definition py_space (c : ascii) : bool :=
  let n := nat_of_ascii c in
  bool_decide (9 ≤ n ≤ 13 ∨ 28 ≤ n ≤ 32).

Fixpoint py_lstrip (s : string) : string :=
  match s with
  | String c s' => if py_space c then py_lstrip s' else s
  | EmptyString => EmptyString
  end.

Fixpoint py_rstrip (s : string) : string :=
  match s with
  | String c s' =>
      match py_rstrip s' with
      | EmptyString => if py_space c then EmptyString else String c EmptyString
      | kept => String c kept
      end
  | EmptyString => EmptyString
  end.

(** [after_digit] tells whether the previous character was a digit. *)
Fixpoint py_digits (acc : Z) (after_digit : bool) (s : string) : option Z :=
  match s with
  | EmptyString => if after_digit then Some acc else None
  | String c s' =>
      if bool_decide (c = "_"%char) then
        if after_digit then py_digits acc false s' else None
      else d ← py_digit c; py_digits (acc * 10 + d)%Z true s'
  end.

Definition py_numeral (s : string) : option Z :=
  match py_rstrip (py_lstrip s) with
  | String "-"%char s' => Z.opp <$> py_digits 0 false s'
  | String "+"%char s' => py_digits 0 false s'
  | s' => py_digits 0 false s'
  end.

Definition py_int (v : value) : result Z :=
  match v with
  | VInt z => Ok z
  | VStr s => from_option Ok (Raise ValueError) (py_numeral s)
  | VNone => Raise TypeError
  end.

Module Excel.

(** A worksheet is the list of its rows of cell values, a workbook the
    dictionary of its worksheets by title.  [files] holds the saved
    workbooks by path, [_workbook] the workbook the adapter object has
    loaded, if any; [cache_headers] is the module's global dictionary, keyed
    by sheet name. *)
Record world : Type := mkWorld {
  files : gmap string (list (string * list (list value)));
  cache_headers : gmap string (list value);
  _workbook : option (list (string * list (list value)));
}.

Record ExcelDB : Type := mkExcelDB { file_path : string }.

(** *** The worksheet operations of openpyxl the adapter calls

    They belong to the library; they are described here on the rows.  A
    sheet has at least one column; a row read from it is completed with
    [None] up to the widest row. *)

Definition width (ws : list (list value)) : nat :=
  foldr (λ r, max (length r)) 1 ws.

Definition pad (n : nat) (r : list value) : list value :=
  r ++ replicate (n - length r) VNone.

(** [[cell.value for cell in ws[1]]] *)
Definition first_row_values (ws : list (list value)) : list value :=
  pad (width ws) (default [] (head ws)).

(** [list(ws.iter_rows(min_row=2, values_only=True))] *)
Definition rows_from_2 (ws : list (list value)) : list (list value) :=
  pad (width ws) <$> drop 1 ws.

(** [ws.delete_rows(idx)]: the row is taken out and the rows below move up;
    nothing happens below the last row.  (Row numbers start at 1; a smaller
    [idx] is outside this description and leaves the rows as they are.) *)
Definition delete_rows (idx : Z) (ws : list (list value)) : list (list value) :=
  if bool_decide (1 ≤ idx)%Z then delete (Z.to_nat (idx - 1)) ws else ws.

(** *** The adapter *)

(** The loaded workbook. *)
Definition workbook (w : world) : list (string * list (list value)) :=
  default [] (_workbook w).

Definition set_workbook (f : list (string * list (list value)) →
                             list (string * list (list value))) (w : world) : world :=
  mkWorld (files w) (cache_headers w) (Some (f (workbook w))).

Definition set_cache (f : gmap string (list value) → gmap string (list value))
    (w : world) : world :=
  mkWorld (files w) (f (cache_headers w)) (_workbook w).

(** [workbook.save(self.file_path)] *)
Definition save (self : ExcelDB) : M world () :=
  modify (λ w, mkWorld (<[file_path self := workbook w]> (files w))
                 (cache_headers w) (_workbook w)).

(** A missing file is created with the single empty sheet of a new
    workbook. *)
Definition _get_workbook (self : ExcelDB) : M world () := λ w,
  match _workbook w with
  | Some _ => (Ok (), w)
  | None =>
      match files w !! file_path self with
      | Some wb => (Ok (), mkWorld (files w) (cache_headers w) (Some wb))
      | None =>
          let wb := [("Sheet", [])] in
          (Ok (), mkWorld (<[file_path self := wb]> (files w))
                    (cache_headers w) (Some wb))
      end
  end.

(** The worksheet object is its title; [headers] is [None] by default. *)
Definition _get_worksheet (self : ExcelDB) (sheet_name : string)
    (headers : option (list string)) : M world string :=
  (sheetnames <- gets (λ w, Dict.keys (workbook w));;
   if bool_decide (sheet_name ∈ sheetnames) then ret sheet_name
   else
     match headers with
     | None => raise ValueError
     | Some headers =>
         modify (set_workbook (λ wb, Dict.set wb sheet_name [VStr <$> headers]));;;
         modify (set_cache <[sheet_name := VStr <$> headers]>);;;
         save self;;;
         ret sheet_name
     end)%py.

Definition _get_headers (self : ExcelDB) (ws sheet_name : string)
    : M world (list value) := λ w,
  match cache_headers w !! sheet_name with
  | Some headers => (Ok headers, w)
  | None =>
      let headers := first_row_values (Dict.get_default (workbook w) ws []) in
      (Ok headers, set_cache <[sheet_name := headers]> w)
  end.

(** [row.get(header, "")] for a header that is any cell value. *)
Definition row_get (row : dict string value) (header : value) : value :=
  match header with
  | VStr h => Dict.get_default row h (VStr "")
  | _ => VStr ""
  end.

Definition insert_many (self : ExcelDB) (models : list SheetModel) : M world () :=
  match models with
  | [] => ret ()
  | first :: _ =>
      let sheet_name := get_sheet_name first in
      let field_map := get_field_map first in
      let mapped_rows :=
        (λ model, Dict.map_keys (λ k, Dict.get_default field_map k k)
                    (model_dump model)) <$> models in
      (_get_workbook self;;;
       ws <- _get_worksheet self sheet_name
               (Some (Dict.keys (default [] (head mapped_rows))));;
       headers <- _get_headers self ws sheet_name;;
       for_ mapped_rows (λ row,
         modify (set_workbook (λ wb,
           Dict.set wb ws (Dict.get_default wb ws [] ++ [row_get row <$> headers]))));;;
       save self)%py
  end.

(** [field_map.get(header, header)] for a header that is any cell value. *)
Definition field_of (field_map : dict string string) (header : value) : value :=
  match header with
  | VStr h => VStr (Dict.get_default field_map h h)
  | _ => header
  end.

(** The keyword arguments of a call: every key has to be a text. *)
Definition keywords (d : dict value value) : option (dict string value) :=
  mapM (λ kv, match kv.1 with VStr k => Some (k, kv.2) | _ => None end) d.

(** One turn of the loop of [get_all]. *)
Definition get_all_step (model : ModelType) (headers : list value)
    (filters : option (dict string value))
    (data : list SheetModel) (row : list value) : list SheetModel :=
  let field_map := generate_field_map model in
  let model_data :=
    Dict.of_pairs ((λ hv, (field_of field_map hv.1, hv.2)) <$> zip headers row) in
  match keywords model_data ≫= model_new model with
  | None => data
  | Some item =>
      if truthy filters then
        if matches item (default [] filters) then data ++ [item] else data
      else data ++ [item]
  end.

Definition get_all (self : ExcelDB) (model : ModelType)
    (filters : option (dict string value)) : M world (list SheetModel) :=
  let sheet_name := get_class_sheet_name model in
  (_get_workbook self;;;
   ws <- _get_worksheet self sheet_name None;;
   headers <- _get_headers self ws sheet_name;;
   rows <- gets (λ w, rows_from_2 (Dict.get_default (workbook w) ws []));;
   ret (foldl (get_all_step model headers filters) [] rows))%py.

(** The row number is computed from the record's [id]. *)
Definition delete_row (self : ExcelDB) (model : ModelType) (item : SheetModel)
    : M world () :=
  let sheet_name := get_class_sheet_name model in
  (_get_workbook self;;;
   ws <- _get_worksheet self sheet_name None;;
   id <- lift (from_option Ok (Raise AttributeError)
                 (Dict.get (model_dump item) "id"));;
   n <- lift (py_int id);;
   let row_number := (n + 1)%Z in
   modify (set_workbook (λ wb,
     Dict.set wb ws (delete_rows row_number (Dict.get_default wb ws []))));;;
   save self)%py.

(** The first item of [data] that matches, if any. *)
Fixpoint first_match (filters : dict string value) (data : list SheetModel)
    : option SheetModel :=
  match data with
  | [] => None
  | item :: data' =>
      if matches item filters then Some item else first_match filters data'
  end.

Definition delete (self : ExcelDB) (model : ModelType)
    (filters : dict string value) : M world SheetModel :=
  (data <- get_all self model None;;
   match first_match filters data with
   | Some item => delete_row self model item;;; ret item
   | None => raise NotFoundError
   end)%py.

Definition get_one (self : ExcelDB) (model : ModelType)
    (filters : dict string value) : M world SheetModel :=
  (data <- get_all self model None;;
   match first_match filters data with
   | Some item => ret item
   | None => raise NotFoundError
   end)%py.

(** [ws.cell(row=row, column=column, value=v)]: the cell is created when
    it is not there, and takes the value unless the value is [None].  Rows
    and columns are numbered from 1. *)
Definition cell_in_row (column : nat) (v : value) (r : list value)
    : list value :=
  let r := r ++ replicate (column - length r) VNone in
  match v with
  | VNone => r
  | _ => <[pred column := v]> r
  end.

Definition cell (row column : nat) (v : value) (ws : list (list value))
    : list (list value) :=
  alter (cell_in_row column v) (pred row)
    (ws ++ replicate (row - length ws) []).

(** [for col_num, value in enumerate(mapped_row, 1):
       ws.cell(row=row_number, column=col_num, value=value)] *)
Definition write_cells (row_number : nat) (mapped_row : list value)
    (ws : list (list value)) : list (list value) :=
  foldl (λ ws cv, cell row_number cv.1 cv.2 ws) ws
    (zip (seq 1 (length mapped_row)) mapped_row).

(** [getattr(item, model.generate_field_map().get(header, header), "")] for
    a header that is any cell value: a name that is not a text is a
    [TypeError]. *)
Definition attr_of (model : ModelType) (item : SheetModel) (header : value)
    : result value :=
  match header with
  | VStr h =>
      Ok (getattr item (Dict.get_default (generate_field_map model) h h) (VStr ""))
  | _ => Raise TypeError
  end.

Fixpoint attrs_of (model : ModelType) (item : SheetModel)
    (headers : list value) : result (list value) :=
  match headers with
  | [] => Ok []
  | header :: headers' =>
      result_bind (attr_of model item header) (λ v,
        result_bind (attrs_of model item headers') (λ vs, Ok (v :: vs)))
  end.

(** The first item of [enumerate(data)], counted from [idx], that matches. *)
Fixpoint find_match (filters : dict string value) (idx : nat)
    (data : list SheetModel) : option (nat * SheetModel) :=
  match data with
  | [] => None
  | item :: data' =>
      if matches item filters then Some (idx, item)
      else find_match filters (S idx) data'
  end.

Definition update (self : ExcelDB) (model : ModelType)
    (filters update_data : dict string value) : M world SheetModel :=
  let sheet_name := get_class_sheet_name model in
  (data <- get_all self model None;;
   match find_match filters 0 data with
   | Some (idx, item) =>
       item <- lift (setattrs item update_data);;
       _get_workbook self;;;
       ws <- _get_worksheet self sheet_name None;;
       headers <- _get_headers self ws sheet_name;;
       mapped_row <- lift (attrs_of model item headers);;
       let row_number := idx + 2 in
       modify (set_workbook (λ wb,
         Dict.set wb ws
           (write_cells row_number mapped_row (Dict.get_default wb ws []))));;;
       save self;;;
       ret item
   | None => raise NotFoundError
   end)%py.

(** [ws.delete_rows(2, len(rows))] with [rows] all the rows from the second
    one on: every row after the first is taken out. *)
Definition delete_all (self : ExcelDB) (model : ModelType) : M world () :=
  let sheet_name := get_class_sheet_name model in
  (_get_workbook self;;;
   ws <- _get_worksheet self sheet_name None;;
   rows <- gets (λ w, drop 1 (Dict.get_default (workbook w) ws []));;
   if bool_decide (rows = []) then ret ()
   else
     modify (set_workbook (λ wb,
       Dict.set wb ws (take 1 (Dict.get_default wb ws []))));;;
     save self)%py.

End Excel.

(** ** The errors of the package (sheetdb/exceptions.py) *)

Module Exceptions.

(** [SheetDBError] and its four subclasses. *)
Inductive error_class : Type :=
  | SheetDBError
  | NotFoundError
  | ValidationError
  | SheetAccessError
  | ConflictError.

Definition default_code (cls : error_class) : string :=
  match cls with
  | SheetDBError => "gsheetdb_error"
  | NotFoundError => "not_found"
  | ValidationError => "validation_error"
  | SheetAccessError => "sheet_access_error"
  | ConflictError => "conflict_error"
  end.

(** An error object: its class, its attributes [detail] and [code], and the
    [args] of the exception. *)
Record error : Type := mkError {
  class_of : error_class;
  detail : string;
  code : string;
  args : list string;
}.

(** [f"[{self.code}] {self.detail}"] *)
Definition message (code detail : string) : string :=
  "[" +:+ code +:+ "] " +:+ detail.

Definition __str__ (e : error) : string := message (code e) (detail e).

(** [code or self.default_code]: an absent or empty code gives the default
    of the class. *)
Definition __init__ (cls : error_class) (detail : string)
    (code : option string) : error :=
  let code :=
    match code with
    | Some c => if bool_decide (c = "") then default_code cls else c
    | None => default_code cls
    end in
  mkError cls detail code [message code detail].

End Exceptions.

(** ** Example models

    The [User] model of [examples/demo_gsheet.py] and two small models,
    with the part of pydantic's validation their annotations need. *)

Module Examples.

Inductive annotation : Type :=
  | TInt      (* [int] *)
  | TStr      (* [str] *)
  | TOptStr.  (* [Optional[str] = None] *)

(** The validation of one field from the keyword argument given for it, if
    any.  An [int] field keeps an [int] and converts a numeral; a [str]
    field takes a [str] only; both are required.  An optional [str] field
    takes [None] or a [str] and defaults to [None]. *)
Definition validate_field (a : annotation) (arg : option value) : option value :=
  match a, arg with
  | TInt, Some (VInt z) => Some (VInt z)
  | TInt, Some (VStr s) => VInt <$> py_numeral s
  | TStr, Some (VStr s) => Some (VStr s)
  | TOptStr, None => Some VNone
  | TOptStr, Some VNone => Some VNone
  | TOptStr, Some (VStr s) => Some (VStr s)
  | _, _ => None
  end.

(** Every declared field is validated, in declaration order; keyword
    arguments that are not fields are ignored. *)
Definition validate_fields (decls : list (string * annotation))
    (kwargs : dict string value) : option (dict string value) :=
  mapM (λ d, pair d.1 <$> validate_field d.2 (Dict.get kwargs d.1)) decls.

Definition User : ModelType :=
  mkModelType "Users"
    [("id", "User ID"); ("name", "Full Name"); ("email", "Email Address")]
    (validate_fields [("id", TInt); ("name", TStr); ("email", TStr)]).


Definition user (id : Z) (name email : string) : SheetModel :=
  mkSheetModel "Users" (class_field_map User)
    [("id", VInt id); ("name", VStr name); ("email", VStr email)].


Definition db : Csv.CsvDB := Csv.mkCsvDB "users.csv".
Definition empty_world : Csv.world := Csv.mkWorld ∅ ∅.

Definition alice : SheetModel := user 1 "Alice" "a@x.com".
Definition bob : SheetModel := user 2 "Bob" "b@x.com".

(** The table of the two users of the specification's example. *)
Definition users_world : Csv.world :=
  (Csv.insert_many db [alice; bob] empty_world).2.

(** Two users who share an e-mail address. *)
Definition ann : SheetModel := user 1 "Ann" "team@x.com".
Definition ben : SheetModel := user 2 "Ben" "team@x.com".
Definition cat : SheetModel := user 3 "Cat" "cat@x.com".

Definition team_world : Csv.world :=
  (Csv.insert_many db [ann; ben; cat] empty_world).2.

(** A model with [n] text columns [c1] ... [cn], and its record whose
    every field is [text]. *)
Definition columns (n : nat) : list string :=
  (λ i : nat, "c" +:+ pretty i) <$> seq 1 n.

Definition Wide (n : nat) : ModelType :=
  mkModelType "Wide" [] (validate_fields ((λ c, (c, TStr)) <$> columns n)).

Definition wide (n : nat) (text : string) : SheetModel :=
  mkSheetModel "Wide" [] ((λ c, (c, VStr text)) <$> columns n).

Definition gdb : GSheet.GoogleSheetDB := GSheet.mkGoogleSheetDB "spreadsheet".
Definition empty_spreadsheet : GSheet.world := GSheet.mkWorld ∅ ∅ false.

Definition users_sheet : GSheet.world :=
  (GSheet.insert_many gdb [alice; bob] empty_spreadsheet).2.

Definition wide_sheet (n : nat) : GSheet.world :=
  (GSheet.insert_many gdb [wide n "x"; wide n "y"] empty_spreadsheet).2.

Definition xdb : Excel.ExcelDB := Excel.mkExcelDB "book.xlsx".
Definition empty_disk : Excel.world := Excel.mkWorld ∅ ∅ None.

(** A workbook whose rows are not in the order of the [id]s. *)
Definition users_book : Excel.world :=
  (Excel.insert_many xdb [bob; alice] empty_disk).2.

End Examples.

(** ** Notions used to state the properties *)

(** The records of a filtered read: every record when [filters] is absent
    or empty, the matching ones otherwise. *)
Definition keeps (filters : option (dict string value)) (item : SheetModel)
    : bool :=
  if truthy filters then matches item (default [] filters) else true.

(** The records stored in the file of [self], in scan order: the rows that
    parse as [model]. *)
Definition stored (self : Csv.CsvDB) (model : ModelType) (w : Csv.world)
    : list SheetModel :=
  match Csv.fs w !! Csv.file_path self with
  | None => []
  | Some rows =>
      omap (Csv.parse_row model (generate_field_map model)) (Csv.DictReader rows)
  end.

(** The header row [_get_headers] resolves, and the world it leaves (the
    header is remembered in the cache when it was read from the file). *)
Definition resolved_headers (self : Csv.CsvDB) (w : Csv.world) : list string :=
  match Csv.cache_headers w !! Csv.file_path self with
  | Some headers => headers
  | None => from_option Csv.next_row [] (Csv.fs w !! Csv.file_path self)
  end.

Definition remember_headers (self : Csv.CsvDB) (w : Csv.world) : Csv.world :=
  match Csv.cache_headers w !! Csv.file_path self, Csv.fs w !! Csv.file_path self with
  | None, Some rows =>
      Csv.set_cache <[Csv.file_path self := Csv.next_row rows]> w
  | _, _ => w
  end.

(** The elements of a list in the order of their first occurrence. *)
Definition first_occurrences {A} `{EqDecision A} (l : list A) : list A :=
  foldl (λ seen x, if bool_decide (x ∈ seen) then seen else seen ++ [x]) [] l.

(** The storage column of a field: [field_map.get(k, k)]. *)
Definition mapped_name (field_map : dict string string) (k : string) : string :=
  Dict.get_default field_map k k.

(** The value a record has for a header: the value of its field whose
    storage column is that header (of the last such field, should several
    fields of the record share the column), if there is one. *)
Definition mapped_value (field_map : dict string string) (m : SheetModel)
    (header : string) : option value :=
  snd <$> last (filter (λ kv, mapped_name field_map kv.1 = header) (model_dump m)).

(** The line written for a record under a header row. *)
Definition line_of (field_map : dict string string) (headers : list string)
    (m : SheetModel) : list string :=
  (λ h, csv_str (default (VStr "") (mapped_value field_map m h))) <$> headers.

(** The header row and the data rows of the table in the file of [self]:
    the first line, and the lines after it that are not blank (the ones a
    reader yields). *)
Definition file_header (self : Csv.CsvDB) (w : Csv.world) : list string :=
  from_option Csv.next_row [] (Csv.fs w !! Csv.file_path self).

Definition data_rows (self : Csv.CsvDB) (w : Csv.world) : list (list string) :=
  from_option (λ rows, filter (λ row, row ≠ []) (drop 1 rows)) []
    (Csv.fs w !! Csv.file_path self).

(** No line after the first one, or no file at all. *)
Definition at_most_header (self : Csv.CsvDB) (w : Csv.world) : Prop :=
  from_option (λ rows, length rows ≤ 1) True (Csv.fs w !! Csv.file_path self).

(** A table state: the cache holds nothing for the file or the header row of
    the file, and data rows only come under a header row that is set.  The
    adapter starts in such a state and stays in one. *)
Definition table_state (self : Csv.CsvDB) (w : Csv.world) : Prop :=
  (Csv.cache_headers w !! Csv.file_path self = None ∨
   (is_Some (Csv.fs w !! Csv.file_path self) ∧
    Csv.cache_headers w !! Csv.file_path self = Some (file_header self w))) ∧
  (file_header self w = [] → data_rows self w = []).

(** What the file gives back for a record: its fields with every value as
    the text written for it. *)
Definition text_form (m : SheetModel) : dict string value :=
  (λ kv, (kv.1, VStr (csv_str kv.2))) <$> model_dump m.

(** The record is one of [model] whose values validation recovers from
    their texts. *)
Definition reads_back (model : ModelType) (m : SheetModel) : Prop :=
  model_new model (text_form m) = Some m.


(** The model type maps its fields [fields] to distinct storage columns that
    map back to them, and has at least one field. *)
Definition well_mapped (model : ModelType) (fields : list string) : Prop :=
  fields ≠ [] ∧
  NoDup (mapped_name (class_field_map model) <$> fields) ∧
  Forall (λ k, Dict.get_default (generate_field_map model)
                 (mapped_name (class_field_map model) k)
                 (mapped_name (class_field_map model) k) = k) fields.



(** Every line of the file has as many cells as its first line. *)
Definition rectangular (self : Csv.CsvDB) (w : Csv.world) : Prop :=
  ∀ rows, Csv.fs w !! Csv.file_path self = Some rows →
    Forall (λ row, length row = length (Csv.next_row rows)) rows.

(** The file and the cache entry of every path other than the one of
    [self] are the same in both worlds. *)
Definition same_elsewhere (self : Csv.CsvDB) (w w' : Csv.world) : Prop :=
  ∀ path, path ≠ Csv.file_path self →
    Csv.fs w' !! path = Csv.fs w !! path ∧
    Csv.cache_headers w' !! path = Csv.cache_headers w !! path.

(** The texts openpyxl stores as they are given: at most 32767 characters,
    none of them a control character other than tab, line feed and carriage
    return (it cuts a longer text and refuses the other control
    characters); and the values it stores as they are given. *)
Definition xl_char (c : ascii) : bool :=
  let n := nat_of_ascii c in
  bool_decide (¬ (n ≤ 8 ∨ 11 ≤ n ≤ 12 ∨ 14 ≤ n ≤ 31)).

Definition xl_text (s : string) : Prop :=
  (Z.of_nat (String.length s) ≤ 32767)%Z ∧
  forallb xl_char (list_ascii_of_string s).

Definition xl_value (v : value) : Prop :=
  match v with
  | VStr s => xl_text s
  | _ => True
  end.

(** A record of the model type with the fields [fields] that validation
    accepts as it is, made of values a workbook stores as they are. *)
Definition xl_record_of (model : ModelType) (fields : list string)
    (m : SheetModel) : Prop :=
  Dict.keys (model_dump m) = fields ∧
  model_new model (model_dump m) = Some m ∧
  Forall xl_value (Dict.values (model_dump m)).

(** The sheet titles openpyxl takes as they are given: not empty, without
    the characters it refuses in a title, and different, whatever the case
    of the letters, from the titles the workbook has (it numbers a title
    that is taken).  The titles are compared as ASCII texts, which all of
    them are asked to be. *)
Definition xl_ascii (s : string) : bool :=
  forallb (λ c, bool_decide (nat_of_ascii c < 128)) (list_ascii_of_string s).

Definition ascii_lower (c : ascii) : ascii :=
  let n := nat_of_ascii c in
  if bool_decide (65 ≤ n ≤ 90) then ascii_of_nat (n + 32) else c.

Definition lower (s : string) : string :=
  string_of_list_ascii (ascii_lower <$> list_ascii_of_string s).

(** The characters refused in a title: backslash, star, question mark,
    colon, slash and the two square brackets. *)
Definition xl_title_char (c : ascii) : bool :=
  bool_decide (nat_of_ascii c ∉ [92; 42; 63; 58; 47; 91; 93]).

Definition xl_title (names : list string) (title : string) : Prop :=
  title ≠ "" ∧ xl_ascii title ∧
  forallb xl_title_char (list_ascii_of_string title) ∧
  Forall (λ n, xl_ascii n ∧ lower n ≠ lower title) names.

(** A sheet all of whose rows are as wide as the sheet and hold no empty
    cell, as the adapter writes them for records without [None]. *)
Definition xl_full (ws : list (list value)) : bool :=
  forallb (λ r, bool_decide (length r = Excel.width ws) &&
                forallb (λ v, bool_decide (v ≠ VNone)) r) ws.

(** The world after the workbook is loaded, and the sheet of a name in the
    loaded workbook (no rows when there is none). *)
Definition xl_loaded (self : Excel.ExcelDB) (w : Excel.world) : Excel.world :=
  (Excel._get_workbook self w).2.

Definition xl_sheet (name : string) (w : Excel.world) : list (list value) :=
  Dict.get_default (Excel.workbook w) name [].

(** The header row [_get_headers] resolves for a sheet, and the world it
    leaves (the header row is remembered when it was read from the sheet). *)
Definition xl_headers (name : string) (w : Excel.world) : list value :=
  match Excel.cache_headers w !! name with
  | Some headers => headers
  | None => Excel.first_row_values (xl_sheet name w)
  end.

Definition xl_remember (name : string) (w : Excel.world) : Excel.world :=
  match Excel.cache_headers w !! name with
  | Some _ => w
  | None =>
      Excel.set_cache <[name := Excel.first_row_values (xl_sheet name w)]> w
  end.

(** The record a row of cell values parses to under a header row, if any,
    and the records stored in the sheet of a model, in row order. *)
Definition xl_parse (model : ModelType) (headers row : list value)
    : option SheetModel :=
  Excel.keywords
    (Dict.of_pairs ((λ hv, (Excel.field_of (generate_field_map model) hv.1, hv.2))
                      <$> zip headers row))
    ≫= model_new model.

Definition xl_stored (model : ModelType) (w : Excel.world) : list SheetModel :=
  let name := get_class_sheet_name model in
  omap (xl_parse model (xl_headers name w)) (Excel.rows_from_2 (xl_sheet name w)).

(** A row after the values [values] were written over its first cells: a
    [None] leaves the cell as it was. *)
Fixpoint overwrite (values row : list value) : list value :=
  match values with
  | [] => row
  | v :: values' =>
      match v with
      | VNone => default VNone (head row)
      | _ => v
      end :: overwrite values' (tail row)
  end.



(** * Properties *)

(** ** Dictionaries *)

Section dict_facts.
Context {K V : Type} `{EqDecision K}.
Implicit Types (d ps : list (K * V)) (k : K) (v : V).

Lemma dict_get_set_eq d k v : Dict.get (Dict.set d k v) k = Some v.
Proof.
  induction d as [|[k' v'] d IH]; simpl.
  - by rewrite decide_True.
  - destruct (decide (k' = k)) as [->|Hne]; simpl.
    + by rewrite decide_True.
    + by rewrite decide_False.
Qed.

Lemma dict_get_set_ne d k k' v :
  k ≠ k' → Dict.get (Dict.set d k v) k' = Dict.get d k'.
Proof.
  intros Hne. induction d as [|[k0 v0] d IH]; simpl.
  - by rewrite decide_False.
  - destruct (decide (k0 = k)) as [->|Hne0]; simpl.
    + by rewrite !decide_False.
    + by rewrite IH.
Qed.

Lemma dict_get_None d k : Dict.get d k = None ↔ k ∉ Dict.keys d.
Proof.
  unfold Dict.keys. induction d as [|[k' v'] d IH]; simpl.
  - split; [intros _; apply not_elem_of_nil | done].
  - rewrite not_elem_of_cons. destruct (decide (k' = k)) as [->|Hne].
    + split; [done | intros [? _]; done].
    + rewrite IH. split; [intros ?; split; [congruence|done] | by intros [_ ?]].
Qed.

Lemma dict_get_Some_elem d k v : Dict.get d k = Some v → (k, v) ∈ d.
Proof.
  induction d as [|[k' v'] d IH]; simpl; [done|].
  destruct (decide (k' = k)) as [->|Hne].
  - intros [= ->]. apply list_elem_of_here.
  - intros Hg. apply list_elem_of_further. by apply IH.
Qed.

Lemma dict_get_elem d k v :
  NoDup (Dict.keys d) → (k, v) ∈ d → Dict.get d k = Some v.
Proof.
  unfold Dict.keys. induction d as [|[k' v'] d IH]; simpl.
  - intros _ Hin. by apply elem_of_nil in Hin.
  - rewrite NoDup_cons. intros [Hk' Hnd] Hin.
    apply elem_of_cons in Hin as [[= -> ->]|Hin].
    + by rewrite decide_True.
    + rewrite decide_False; [by apply IH|].
      intros ->. apply Hk'. apply list_elem_of_fmap. by exists (k, v).
Qed.

Lemma dict_set_fresh d k v :
  k ∉ Dict.keys d → Dict.set d k v = d ++ [(k, v)].
Proof.
  unfold Dict.keys. induction d as [|[k' v'] d IH]; simpl; [done|].
  rewrite not_elem_of_cons. intros [Hne Hk].
  rewrite decide_False; [|done]. by rewrite IH.
Qed.

Lemma dict_keys_set_mem d k v :
  k ∈ Dict.keys d → Dict.keys (Dict.set d k v) = Dict.keys d.
Proof.
  unfold Dict.keys. induction d as [|[k' v'] d IH]; simpl.
  - intros Hin. by apply elem_of_nil in Hin.
  - destruct (decide (k' = k)) as [->|Hne]; simpl; [done|].
    intros Hin. apply elem_of_cons in Hin as [->|Hin]; [done|].
    f_equal. by apply IH.
Qed.

(** Storing pairs with distinct fresh keys appends them in order. *)
Lemma dict_store_fresh ps d :
  NoDup (Dict.keys ps) →
  (∀ k, k ∈ Dict.keys ps → k ∉ Dict.keys d) →
  foldl (λ acc kv, Dict.set acc kv.1 kv.2) d ps = d ++ ps.
Proof.
  unfold Dict.keys. revert d.
  induction ps as [|[k v] ps IH]; intros d Hnd Hfresh; simpl.
  - by rewrite app_nil_r.
  - simpl in Hnd. apply NoDup_cons in Hnd as [Hk Hnd].
    rewrite dict_set_fresh; [|apply Hfresh; simpl; apply list_elem_of_here].
    rewrite IH; [by rewrite <- app_assoc|done|].
    intros k' Hk'. unfold Dict.keys. rewrite fmap_app. simpl.
    rewrite elem_of_app, list_elem_of_singleton.
    intros [Hin| ->]; [|done].
    by eapply Hfresh; [apply list_elem_of_further|].
Qed.

Lemma dict_of_pairs_NoDup ps : NoDup (Dict.keys ps) → Dict.of_pairs ps = ps.
Proof.
  intros Hnd. unfold Dict.of_pairs.
  rewrite dict_store_fresh; [done..|].
  intros k _. apply not_elem_of_nil.
Qed.
End dict_facts.

Lemma dict_map_keys_inj {K K' V} `{EqDecision K'} (f : K → K')
    (d : list (K * V)) :
  NoDup (f <$> Dict.keys d) →
  Dict.map_keys f d = (λ kv, (f kv.1, kv.2)) <$> d.
Proof.
  intros Hnd. unfold Dict.map_keys. apply dict_of_pairs_NoDup.
  unfold Dict.keys in *. rewrite <- list_fmap_compose in Hnd.
  rewrite <- list_fmap_compose. exact Hnd.
Qed.

Lemma dict_invert_inj {K V} `{EqDecision V} (d : list (K * V)) :
  NoDup (Dict.values d) → Dict.invert d = (λ kv, (kv.2, kv.1)) <$> d.
Proof.
  intros Hnd. unfold Dict.invert. apply dict_of_pairs_NoDup.
  unfold Dict.keys, Dict.values in *. rewrite <- list_fmap_compose. exact Hnd.
Qed.

(** ** The field map and its inverse *)

Section field_map.
Variable cls : ModelType.
Hypothesis Hkeys : NoDup (Dict.keys (class_field_map cls)).
Hypothesis Hheaders : NoDup (Dict.values (class_field_map cls)).

Lemma generate_field_map_get h k :
  Dict.get (generate_field_map cls) h = Some k ↔
  Dict.get (class_field_map cls) k = Some h.
Proof.
  unfold generate_field_map. rewrite dict_invert_inj by done.
  set (swap := λ kv : string * string, (kv.2, kv.1)).
  assert (Hk : NoDup (Dict.keys (swap <$> class_field_map cls))).
  { unfold Dict.keys, Dict.values in *. by rewrite <- list_fmap_compose. }
  split; intros Hg.
  - apply dict_get_Some_elem in Hg.
    apply list_elem_of_fmap in Hg as [[k' h'] [[= -> ->] Hin]].
    by apply dict_get_elem.
  - apply dict_get_Some_elem in Hg. apply dict_get_elem; [done|].
    apply list_elem_of_fmap. by exists (k, h).
Qed.
End field_map.

(** A field goes to its storage column and back, whether the field map
    names it or not, provided no field outside the map bears the name of one
    of the map's columns. *)
Lemma mapped_name_maps_back (cls : ModelType) (k : string) :
  NoDup (Dict.keys (class_field_map cls)) →
  NoDup (Dict.values (class_field_map cls)) →
  (k ∉ Dict.keys (class_field_map cls) → k ∉ Dict.values (class_field_map cls)) →
  Dict.get_default (generate_field_map cls)
    (mapped_name (class_field_map cls) k) (mapped_name (class_field_map cls) k)
  = k.
Proof.
  intros Hk Hv Hout. unfold mapped_name, Dict.get_default.
  destruct (Dict.get (class_field_map cls) k) as [h|] eqn:Hg; simpl.
  - apply generate_field_map_get in Hg; [|done..]. by rewrite Hg.
  - apply dict_get_None in Hg.
    destruct (Dict.get (generate_field_map cls) k) as [k'|] eqn:Hg'; [|done].
    apply generate_field_map_get, dict_get_Some_elem in Hg'; [|done..].
    exfalso. apply (Hout Hg). unfold Dict.values.
    apply list_elem_of_fmap. by exists (k', k).
Qed.



(** ** Reading: [get_all], [get_one] *)

Section csv_read.
Import Csv.
Implicit Types (self : CsvDB) (model : ModelType) (w : world).
Implicit Types (filters : dict string value) (data : list SheetModel).

Lemma get_all_loop model field_map (ofilters : option (dict string value))
    (rows : list dict_row) data :
  foldl (get_all_step model field_map ofilters) data rows
  = data ++ filter (λ item, keeps ofilters item)
              (omap (parse_row model field_map) rows).
Proof.
  revert data. induction rows as [|row rows IH]; intros data; simpl.
  - by rewrite app_nil_r.
  - rewrite IH. unfold get_all_step, keeps.
    destruct (parse_row model field_map row) as [item|]; [|done].
    rewrite filter_cons.
    destruct (truthy ofilters).
    + destruct (matches item (default [] ofilters)).
      * rewrite decide_True by done. by rewrite <- app_assoc.
      * rewrite decide_False; [done | by intros []].
    + rewrite decide_True by done. by rewrite <- app_assoc.
Qed.

Lemma filter_all_true {A} (P : A → Prop) `{∀ x, Decision (P x)} (l : list A) :
  (∀ x, P x) → filter P l = l.
Proof.
  intros HP. induction l as [|x l IH]; [done|].
  rewrite filter_cons, decide_True by done. by rewrite IH.
Qed.

(** Without filters [get_all] returns the stored records. *)
Lemma get_all_unfiltered self model w :
  get_all self model None w = stored self model w.
Proof.
  unfold get_all, stored. destruct (fs w !! file_path self) as [rows|]; [|done].
  rewrite get_all_loop. simpl. by apply filter_all_true.
Qed.

(** With filters it returns the stored records that match, in scan order. *)
Lemma get_all_filtered self model filters w :
  get_all self model (Some filters) w
  = filter (λ item, matches item filters) (stored self model w).
Proof.
  unfold get_all, stored. destruct (fs w !! file_path self) as [rows|]; [|done].
  rewrite get_all_loop. simpl. unfold keeps.
  destruct filters as [|kv filters]; simpl; [|done].
  rewrite !filter_all_true; done.
Qed.

Lemma first_match_head filters data :
  first_match filters data = head (filter (λ item, matches item filters) data).
Proof.
  induction data as [|item data IH]; simpl; [done|].
  rewrite filter_cons. destruct (matches item filters) eqn:Hm.
  - by rewrite decide_True by done.
  - rewrite decide_False; [done | by intros []].
Qed.

Lemma first_match_None filters data :
  Forall (λ item, ¬ matches item filters) data →
  first_match filters data = None.
Proof.
  induction 1 as [|item data Hm _ IH]; simpl; [done|].
  by destruct (matches item filters).
Qed.

(** [get_one] by the records it scans. *)
Lemma get_one_stored self model filters w :
  get_one self model filters w
  = (match first_match filters (stored self model w) with
     | Some item => Ok item
     | None => Raise NotFoundError
     end, w).
Proof.
  unfold get_one; unfold_monad. rewrite get_all_unfiltered.
  by destruct (first_match filters (stored self model w)).
Qed.

End csv_read.

(** C7. Whenever [get_all(model, filters)] is not empty, [get_one(model,
    filters)] returns its first element (and changes nothing), although it
    scans the unfiltered records again. *)
Theorem get_one_is_head_of_get_all (self : Csv.CsvDB) (model : ModelType)
    (filters : dict string value) (w : Csv.world)
    (item : SheetModel) (others : list SheetModel) :
  Csv.get_all self model (Some filters) w = item :: others →
  Csv.get_one self model filters w = (Ok item, w).
Proof.
  intros Hall. rewrite get_one_stored, first_match_head.
  rewrite <- get_all_filtered, Hall. done.
Qed.

(** ** Writing: [update], [delete], [delete_all], [insert_many] *)

Section csv_write.
Import Csv.
Implicit Types (self : CsvDB) (model : ModelType) (w : world).
Implicit Types (filters update_data : dict string value).
Implicit Types (data : list SheetModel).

Lemma _get_headers_eq self w :
  _get_headers self w = (Ok (resolved_headers self w), remember_headers self w).
Proof.
  unfold _get_headers, resolved_headers, remember_headers.
  destruct (cache_headers w !! file_path self); [done|].
  by destruct (fs w !! file_path self).
Qed.

Lemma update_loop_no_match filters update_data data :
  Forall (λ item, ¬ matches item filters) data →
  update_loop filters update_data data = Ok None.
Proof.
  induction 1 as [|item data Hm _ IH]; simpl; [done|].
  destruct (matches item filters); [by destruct Hm|]. by rewrite IH.
Qed.

(** The loop of [update] assigns the first matching record and no other. *)
Lemma update_loop_first filters update_data before item after :
  Forall (λ item, ¬ matches item filters) before →
  matches item filters →
  update_loop filters update_data (before ++ item :: after)
  = result_bind (setattrs item update_data)
      (λ item', Ok (Some (item', before ++ item' :: after))).
Proof.
  intros Hbefore Hitem.
  induction Hbefore as [|other before Hm _ IH]; simpl.
  - destruct (matches item filters); [|done].
    by destruct (setattrs item update_data).
  - destruct (matches other filters); [by destruct Hm|].
    rewrite IH. by destruct (setattrs item update_data).
Qed.

(** The loop of [delete] leaves out every matching record and keeps the
    last one of them as [deleted_item]. *)
Lemma delete_loop filters data new_data deleted_item :
  foldl (delete_step filters) (new_data, deleted_item) data
  = (new_data ++ filter (λ item, ¬ matches item filters) data,
     from_option Some deleted_item
       (last (filter (λ item, matches item filters) data))).
Proof.
  revert new_data deleted_item.
  induction data as [|item data IH]; intros new_data deleted_item; simpl.
  - by rewrite app_nil_r.
  - rewrite !filter_cons. unfold delete_step at 2.
    destruct (matches item filters) eqn:Hm; simpl; rewrite IH.
    + f_equal. rewrite last_cons. by destruct (last _).
    + by rewrite <- app_assoc.
Qed.

Lemma delete_loop_no_match filters data :
  Forall (λ item, ¬ matches item filters) data →
  foldl (delete_step filters) ([], None) data = (data, None).
Proof.
  intros Hno. rewrite delete_loop. simpl. f_equal.
  - induction Hno as [|item data Hm _ IH]; [done|].
    by rewrite filter_cons, decide_True, IH.
  - induction Hno as [|item data Hm _ IH]; [done|].
    by rewrite filter_cons, decide_False.
Qed.

Lemma update_not_found self model filters update_data w :
  Forall (λ item, ¬ matches item filters) (get_all self model None w) →
  update self model filters update_data w = (Raise NotFoundError, w).
Proof.
  intros Hno. unfold update; unfold_monad.
  by rewrite update_loop_no_match.
Qed.

Lemma delete_not_found self model filters w :
  Forall (λ item, ¬ matches item filters) (get_all self model None w) →
  delete self model filters w = (Raise NotFoundError, w).
Proof.
  intros Hno. unfold delete; unfold_monad.
  by rewrite delete_loop_no_match.
Qed.

Lemma get_one_not_found self model filters w :
  Forall (λ item, ¬ matches item filters) (get_all self model None w) →
  get_one self model filters w = (Raise NotFoundError, w).
Proof.
  intros Hno. unfold get_one; unfold_monad.
  by rewrite first_match_None.
Qed.

(** [get_one] returns the first matching record. *)
Lemma get_one_first self model filters w before item after :
  get_all self model None w = before ++ item :: after →
  Forall (λ item, ¬ matches item filters) before →
  matches item filters →
  get_one self model filters w = (Ok item, w).
Proof.
  intros Hall Hbefore Hitem. unfold get_one; unfold_monad. rewrite Hall.
  clear Hall. induction Hbefore as [|other before Hm _ IH]; simpl.
  - by destruct (matches item filters).
  - destruct (matches other filters); [by destruct Hm|]. done.
Qed.

(** [update] assigns the first matching record, returns it, and writes the
    records back with that one replaced. *)
Lemma update_first self model filters update_data w before item after item' :
  get_all self model None w = before ++ item :: after →
  Forall (λ item, ¬ matches item filters) before →
  matches item filters →
  setattrs item update_data = Ok item' →
  update self model filters update_data w
  = (Ok item',
     let headers := resolved_headers self w in
     set_fs <[file_path self :=
                headers :: (csv_row <$> (row_of model headers
                                           <$> (before ++ item' :: after)))]>
       (remember_headers self w)).
Proof.
  intros Hall Hbefore Hitem Hset. unfold update; unfold_monad.
  rewrite Hall, update_loop_first, Hset by done. cbn [result_bind].
  by rewrite _get_headers_eq.
Qed.

End csv_write.

(** C10. In the delimited-text adapter, when no stored record matches the
    filters, [update] and [delete] raise [NotFoundError] and leave the world
    (the file, with its header row and data rows, and the header cache)
    exactly as it was. *)
Theorem csv_update_delete_not_found_unchanged (self : Csv.CsvDB)
    (model : ModelType) (filters update_data : dict string value)
    (w : Csv.world) :
  Forall (λ item, ¬ matches item filters) (Csv.get_all self model None w) →
  Csv.update self model filters update_data w = (Raise NotFoundError, w) ∧
  Csv.delete self model filters w = (Raise NotFoundError, w).
Proof.
  intros Hno. split.
  - by apply update_not_found.
  - by apply delete_not_found.
Qed.

Section csv_delete.
Import Csv.

(** [delete] on any table: it raises when nothing matches; otherwise it
    returns the last matching record and writes back the records that do
    not match. *)
Lemma delete_eq (self : CsvDB) (model : ModelType)
    (filters : dict string value) (w : world) :
  delete self model filters w
  = match last (filter (λ item, matches item filters) (stored self model w)) with
    | None => (Raise NotFoundError, w)
    | Some item =>
        (Ok item,
         let headers := resolved_headers self w in
         set_fs <[file_path self :=
                    headers :: (csv_row <$> (row_of model headers <$>
                      filter (λ item, ¬ matches item filters)
                        (stored self model w)))]>
           (remember_headers self w))
    end.
Proof.
  unfold delete; unfold_monad. rewrite get_all_unfiltered, delete_loop.
  cbn [app from_option].
  destruct (last (filter _ (stored self model w))) as [item|]; [|done].
  cbn [from_option]. by rewrite _get_headers_eq.
Qed.

End csv_delete.

(** ** [insert_many] *)

Section dict_store.
Context {K V : Type} `{EqDecision K}.
Implicit Types (d ps : list (K * V)) (k : K) (v : V).

Lemma dict_keys_set d k v :
  Dict.keys (Dict.set d k v)
  = if bool_decide (k ∈ Dict.keys d) then Dict.keys d else Dict.keys d ++ [k].
Proof.
  case_bool_decide as Hin.
  - by apply dict_keys_set_mem.
  - rewrite dict_set_fresh by done. unfold Dict.keys. by rewrite fmap_app.
Qed.

Lemma dict_keys_store ps d :
  Dict.keys (foldl (λ acc kv, Dict.set acc kv.1 kv.2) d ps)
  = foldl (λ seen x, if bool_decide (x ∈ seen) then seen else seen ++ [x])
      (Dict.keys d) (Dict.keys ps).
Proof.
  revert d. induction ps as [|[k v] ps IH]; intros d; simpl; [done|].
  by rewrite IH, dict_keys_set.
Qed.

Lemma dict_keys_of_pairs ps :
  Dict.keys (Dict.of_pairs ps) = first_occurrences (Dict.keys ps).
Proof. apply dict_keys_store. Qed.

Lemma dict_get_store ps d k :
  Dict.get (foldl (λ acc kv, Dict.set acc kv.1 kv.2) d ps) k
  = match last (filter (λ kv, kv.1 = k) ps) with
    | Some kv => Some kv.2
    | None => Dict.get d k
    end.
Proof.
  revert d. induction ps as [|[k' v'] ps IH]; intros d; simpl; [done|].
  rewrite IH, filter_cons. simpl. destruct (decide (k' = k)) as [->|Hne].
  - rewrite last_cons. destruct (last (filter _ ps)); [done|].
    by rewrite dict_get_set_eq.
  - destruct (last (filter _ ps)); [done|]. by rewrite dict_get_set_ne.
Qed.

Lemma dict_get_of_pairs ps k :
  Dict.get (Dict.of_pairs ps) k = snd <$> last (filter (λ kv, kv.1 = k) ps).
Proof.
  unfold Dict.of_pairs. rewrite dict_get_store.
  by destruct (last (filter _ ps)).
Qed.
End dict_store.

Lemma list_filter_fmap_pre {A B} (f : A → B) (P : B → Prop)
    `{∀ y, Decision (P y)} (l : list A) :
  filter P (f <$> l) = f <$> filter (P ∘ f) l.
Proof.
  induction l as [|x l IH]; [done|]. rewrite fmap_cons, !filter_cons. simpl.
  destruct (decide (P (f x))); by rewrite IH.
Qed.

Section csv_insert.
Import Csv.
Implicit Types (self : CsvDB) (model : ModelType) (w : world).

(** The cell a record gets under a header. *)
Lemma mapped_row_get field_map (m : SheetModel) h :
  Dict.get (mapped_row field_map m) h = mapped_value field_map m h.
Proof.
  unfold mapped_row, Dict.map_keys, mapped_value. rewrite dict_get_of_pairs.
  rewrite (list_filter_fmap_pre _ (λ kv : string * value, kv.1 = h)).
  rewrite fmap_last. by destruct (last _) as [[??]|].
Qed.

Lemma mapped_row_keys field_map (m : SheetModel) :
  Dict.keys (mapped_row field_map m)
  = first_occurrences (mapped_name field_map <$> Dict.keys (model_dump m)).
Proof.
  unfold mapped_row, Dict.map_keys. rewrite dict_keys_of_pairs.
  f_equal. unfold Dict.keys. by rewrite <- !list_fmap_compose.
Qed.

Lemma project_line field_map headers (m : SheetModel) :
  csv_row (project headers (mapped_row field_map m))
  = line_of field_map headers m.
Proof.
  unfold csv_row, project, line_of. rewrite <- list_fmap_compose.
  apply list_fmap_ext. intros _ h _. simpl.
  unfold Dict.get_default. by rewrite mapped_row_get.
Qed.

(** Appending the rows one by one. *)
Lemma append_rows_loop {A} self (f : A → list value) (x : A) (xs : list A) w :
  for_ (x :: xs) (λ y, _append_row self (f y)) w
  = (Ok (), set_fs <[file_path self :=
               default [] (fs w !! file_path self)
                 ++ ((λ y, csv_row (f y)) <$> (x :: xs))]> w).
Proof.
  revert x w. induction xs as [|x' xs IH]; intros x w.
  - done.
  - change (for_ (x :: x' :: xs) (λ y, _append_row self (f y)) w)
      with (for_ (x' :: xs) (λ y, _append_row self (f y))
              (set_fs <[file_path self :=
                 default [] (fs w !! file_path self) ++ [csv_row (f x)]]> w)).
    rewrite IH. f_equal. unfold set_fs. simpl.
    rewrite lookup_insert_eq, insert_insert_eq. simpl.
    by rewrite <- app_assoc.
Qed.

Lemma insert_many_eq self first others w :
  let field_map := get_field_map first in
  let unset := bool_decide (resolved_headers self w = []) in
  let headers :=
    if unset
    then first_occurrences (mapped_name field_map <$> Dict.keys (model_dump first))
    else resolved_headers self w in
  let before :=
    if unset then [headers] else default [] (fs w !! file_path self) in
  insert_many self (first :: others) w
  = (Ok (),
     mkWorld
       (<[file_path self :=
            before ++ (line_of field_map headers <$> first :: others)]> (fs w))
       (if unset then <[file_path self := headers]> (cache_headers w)
        else cache_headers (remember_headers self w))).
Proof.
  intros field_map unset headers before.
  unfold insert_many, bind. rewrite _get_headers_eq.
  fold field_map. fold unset.
  assert (Hfs : fs (remember_headers self w) = fs w).
  { unfold remember_headers.
    destruct (cache_headers w !! file_path self); [done|].
    by destruct (fs w !! file_path self). }
  destruct unset eqn:Hunset; subst headers before.
  - unfold _write_rows, modify, ret. cbv beta iota zeta.
    rewrite fmap_cons, append_rows_loop.
    rewrite mapped_row_keys. unfold set_fs, set_cache. cbn [fs cache_headers].
    rewrite lookup_insert_eq, insert_insert_eq, Hfs. cbn [default].
    f_equal. f_equal.
    + f_equal. rewrite fmap_nil. f_equal. rewrite <- fmap_cons.
      rewrite <- list_fmap_compose.
      apply list_fmap_ext. intros _ m _. cbn [compose].
      by rewrite <- mapped_row_keys, project_line.
    + unfold remember_headers.
      destruct (cache_headers w !! file_path self); [done|].
      destruct (fs w !! file_path self); [|done].
      unfold set_cache. cbn [cache_headers]. by rewrite insert_insert_eq.
  - unfold ret. cbv beta iota zeta. rewrite fmap_cons, append_rows_loop.
    unfold set_fs. cbn [fs cache_headers]. rewrite Hfs.
    f_equal. f_equal. f_equal. f_equal.
    rewrite <- fmap_cons. rewrite <- list_fmap_compose.
    apply list_fmap_ext. intros _ m _. cbn [compose]. by rewrite project_line.
Qed.

End csv_insert.


(** ** [delete_all] *)

Section csv_delete_all.
Import Csv.
Implicit Types (self : CsvDB) (model : ModelType) (w : world).

Lemma resolved_headers_table_state self w :
  table_state self w → resolved_headers self w = file_header self w.
Proof.
  intros [[Hc|[_ Hc]] _]; unfold resolved_headers; by rewrite Hc.
Qed.

Lemma get_all_no_data self model filters w :
  data_rows self w = [] → get_all self model filters w = [].
Proof.
  unfold data_rows, get_all.
  destruct (fs w !! file_path self) as [[|h rows]|]; [done| |done].
  unfold DictReader. intros Hd.
  change (filter (λ row : list string, row ≠ []) rows = []) in Hd.
  by rewrite Hd.
Qed.

Lemma delete_all_eq self model w :
  delete_all self model w
  = (Ok (),
     if bool_decide (resolved_headers self w = []) then remember_headers self w
     else set_fs <[file_path self := [resolved_headers self w]]>
            (remember_headers self w)).
Proof.
  unfold delete_all, bind. rewrite _get_headers_eq.
  by case_bool_decide.
Qed.

Lemma remember_headers_fs self w : fs (remember_headers self w) = fs w.
Proof.
  unfold remember_headers.
  destruct (cache_headers w !! file_path self); [done|].
  by destruct (fs w !! file_path self).
Qed.

Lemma remember_headers_cache self w :
  table_state self w →
  cache_headers (remember_headers self w) !! file_path self
  = match fs w !! file_path self with
    | Some _ => Some (file_header self w)
    | None => None
    end.
Proof.
  intros [Hc _]. unfold remember_headers, file_header.
  destruct Hc as [Hc|[[rows Hf] Hc]]; rewrite Hc.
  - destruct (fs w !! file_path self); simpl; [|done].
    by rewrite lookup_insert_eq.
  - rewrite Hf. simpl. rewrite Hc. unfold file_header. by rewrite Hf.
Qed.

(** What [delete_all] does to a table state. *)
Lemma delete_all_table_state self model w :
  table_state self w →
  let w' := (delete_all self model w).2 in
  (delete_all self model w).1 = Ok () ∧
  table_state self w' ∧
  file_header self w' = file_header self w ∧
  data_rows self w' = [] ∧
  (at_most_header self w → fs w' = fs w) ∧
  (file_header self w ≠ [] →
   fs w' !! file_path self = Some [file_header self w] ∧
   cache_headers w' !! file_path self = Some (file_header self w)).
Proof.
  intros Hts. rewrite delete_all_eq. simpl.
  rewrite (resolved_headers_table_state _ _ Hts).
  pose proof (remember_headers_cache _ _ Hts) as Hcache.
  pose proof (remember_headers_fs self w) as Hfs.
  destruct Hts as [Hc Hdata].
  case_bool_decide as Hh.
  - split; [done|]. split; [|split; [|split; [|split]]].
    + unfold table_state, file_header, data_rows in *. rewrite Hfs, Hcache.
      split; [|done]. destruct (fs w !! file_path self); [right|left]; eauto.
    + unfold file_header. by rewrite Hfs.
    + unfold data_rows in *. rewrite Hfs. auto.
    + done.
    + done.
  - assert (Hsome : is_Some (fs w !! file_path self)).
    { unfold file_header in Hh. destruct (fs w !! file_path self); [eauto|done]. }
    destruct Hsome as [rows Hrows]. rewrite Hrows in Hcache.
    split; [done|]. split; [|split; [|split; [|split]]].
    + unfold table_state, file_header, data_rows, set_fs. simpl.
      rewrite lookup_insert_eq. simpl. split; [|done].
      right. split; [eauto|]. rewrite Hcache. unfold file_header.
      by rewrite Hrows.
    + unfold file_header, set_fs. simpl. by rewrite lookup_insert_eq.
    + unfold data_rows, set_fs. simpl. by rewrite lookup_insert_eq.
    + unfold at_most_header, set_fs. simpl. rewrite Hfs, Hrows. simpl.
      intros Hlen. apply insert_id. rewrite Hrows. f_equal.
      unfold file_header in *. rewrite Hrows in *. simpl in *.
      destruct rows as [|h [|??]]; simpl in *; [done|done|lia].
    + intros _. unfold set_fs. simpl. by rewrite lookup_insert_eq.
Qed.

End csv_delete_all.

Section csv_table_state.
Import Csv.
Implicit Types (self : CsvDB) (model : ModelType) (w : world).

Lemma table_state_empty self : table_state self (mkWorld ∅ ∅).
Proof. split; [by left | done]. Qed.

Lemma line_of_nil field_map (m : SheetModel) : line_of field_map [] m = [].
Proof. done. Qed.

(** [insert_many] keeps the table a table state. *)
Lemma table_state_insert_many self models w :
  table_state self w → table_state self (insert_many self models w).2.
Proof.
  intros Hts. destruct models as [|first others]; [done|].
  rewrite insert_many_eq. cbn [snd].
  rewrite (resolved_headers_table_state _ _ Hts).
  pose proof (remember_headers_cache _ _ Hts) as Hcache.
  destruct Hts as [Hc Hdata].
  case_bool_decide as Hh.
  - split.
    + right. unfold file_header. cbn [fs cache_headers].
      rewrite !lookup_insert_eq. eauto.
    + unfold file_header, data_rows. cbn [fs].
      rewrite lookup_insert_eq. cbn [from_option next_row head app default].
      unfold id. intros ->.
      change (filter (λ row : list string, row ≠ [])
        (line_of (get_field_map first) [] <$> first :: others) = []).
      generalize (first :: others). intros ms.
      induction ms as [|m ms IH]; [done|].
      rewrite fmap_cons, filter_cons, line_of_nil. by rewrite decide_False by auto.
  - assert (Hsome : is_Some (fs w !! file_path self)).
    { unfold file_header in Hh. destruct (fs w !! file_path self); [eauto|done]. }
    destruct Hsome as [rows Hrows]. rewrite Hrows in Hcache.
    assert (Hhd : ∀ more, file_header self
              (mkWorld (<[file_path self := rows ++ more]> (fs w))
                 (cache_headers (remember_headers self w))) = file_header self w).
    { intros more. unfold file_header. cbn [fs]. rewrite lookup_insert_eq, Hrows.
      unfold file_header in Hh. rewrite Hrows in Hh.
      by destruct rows. }
    rewrite Hrows. cbn [default]. split.
    + right. rewrite Hhd. cbn [fs cache_headers].
      rewrite lookup_insert_eq. eauto.
    + rewrite Hhd. done.
Qed.

(** After [delete_all] the table reads as empty, and keeps its header row
    for the records inserted next. *)
Lemma delete_all_then_read self model model' filters w :
  table_state self w →
  get_all self model' filters (delete_all self model w).2 = [].
Proof.
  intros Hts. apply get_all_no_data.
  by apply (delete_all_table_state self model w Hts).
Qed.

Lemma delete_all_then_insert self model first others w :
  table_state self w →
  file_header self w ≠ [] →
  let w' := (insert_many self (first :: others) (delete_all self model w).2).2 in
  fs w' !! file_path self
  = Some (file_header self w
            :: (line_of (get_field_map first) (file_header self w)
                  <$> first :: others)) ∧
  cache_headers w' !! file_path self = Some (file_header self w).
Proof.
  intros Hts Hh.
  destruct (delete_all_table_state self model w Hts)
    as (_ & Hts' & Hhd & _ & _ & Hfile).
  destruct (Hfile Hh) as [Hfs Hcache].
  set (w1 := (delete_all self model w).2) in *.
  intros w'. subst w'. rewrite insert_many_eq. cbn [snd fs cache_headers].
  rewrite (resolved_headers_table_state _ _ Hts'), Hhd.
  rewrite bool_decide_eq_false_2 by done.
  rewrite lookup_insert_eq, Hfs. cbn [default]. split; [done|].
  unfold remember_headers. by rewrite Hcache.
Qed.

End csv_table_state.

(** The delimited-text adapter and [delete_all], for every table state: the
    call returns, the header row is unchanged and the data rows are gone;
    the file is left as it is when it had no line after the header row;
    [get_all] then returns the empty sequence; and records inserted next go
    under the header row that was there. *)
Theorem csv_delete_all_keeps_header (self : Csv.CsvDB) (model : ModelType)
    (w : Csv.world) :
  table_state self w →
  let w' := (Csv.delete_all self model w).2 in
  (Csv.delete_all self model w).1 = Ok () ∧
  table_state self w' ∧
  file_header self w' = file_header self w ∧
  data_rows self w' = [] ∧
  (at_most_header self w → Csv.fs w' = Csv.fs w) ∧
  (∀ filters, Csv.get_all self model filters w' = []) ∧
  (file_header self w ≠ [] → ∀ first others,
     let w'' := (Csv.insert_many self (first :: others) w').2 in
     Csv.fs w'' !! Csv.file_path self
     = Some (file_header self w
               :: (line_of (get_field_map first) (file_header self w)
                     <$> first :: others)) ∧
     Csv.cache_headers w'' !! Csv.file_path self = Some (file_header self w)).
Proof.
  intros Hts w'.
  destruct (delete_all_table_state self model w Hts)
    as (Hok & Hts' & Hhd & Hdata & Hnoop & _).
  split; [done|]. split; [done|]. split; [done|]. split; [done|].
  split; [done|]. split.
  - intros filters. by apply delete_all_then_read.
  - intros Hh first others.
    by apply (delete_all_then_insert self model first others w).
Qed.

(** [update] and [delete] keep the table a table state: they change nothing
    or rewrite the file under the header row it had. *)
Section csv_rewrite.
Import Csv.
Implicit Types (self : CsvDB) (model : ModelType) (w : world).

Lemma table_state_rewrite self model (rows : list (list string)) w :
  table_state self w →
  stored self model w ≠ [] →
  table_state self
    (set_fs <[file_path self := resolved_headers self w :: rows]>
       (remember_headers self w)).
Proof.
  intros Hts Hstored.
  assert (Hh : file_header self w ≠ []).
  { intros Hh. apply Hstored. rewrite <- get_all_unfiltered.
    apply get_all_no_data. by apply Hts. }
  assert (Hsome : is_Some (fs w !! file_path self)).
  { unfold file_header in Hh. destruct (fs w !! file_path self); [eauto|done]. }
  pose proof (remember_headers_cache _ _ Hts) as Hcache.
  destruct Hsome as [old Hold]. rewrite Hold in Hcache.
  rewrite (resolved_headers_table_state _ _ Hts).
  set (w' := set_fs _ _).
  assert (Hfs : fs w' !! file_path self = Some (file_header self w :: rows)).
  { subst w'. unfold set_fs. cbn [fs]. by rewrite lookup_insert_eq. }
  assert (Hfh : file_header self w' = file_header self w).
  { unfold file_header at 1. by rewrite Hfs. }
  split.
  - right. rewrite Hfs, Hfh. split; [eauto|]. exact Hcache.
  - by rewrite Hfh.
Qed.

Lemma update_world self model filters update_data w :
  (update self model filters update_data w).2 = w ∨
  (stored self model w ≠ [] ∧
   ∃ rows, (update self model filters update_data w).2
           = set_fs <[file_path self := resolved_headers self w :: rows]>
               (remember_headers self w)).
Proof.
  unfold update; unfold_monad. rewrite get_all_unfiltered.
  destruct (stored self model w) as [|item data] eqn:Hstored; [by left|].
  destruct (update_loop _ _ _) as [[[item' data']|]|e]; [|by left..].
  right. split; [done|]. rewrite _get_headers_eq. eexists. reflexivity.
Qed.

Lemma delete_world self model filters w :
  (delete self model filters w).2 = w ∨
  (stored self model w ≠ [] ∧
   ∃ rows, (delete self model filters w).2
           = set_fs <[file_path self := resolved_headers self w :: rows]>
               (remember_headers self w)).
Proof.
  rewrite delete_eq.
  destruct (stored self model w) as [|item data] eqn:Hstored; [by left|].
  destruct (last _) as [found|]; [|by left].
  right. split; [done|]. eexists. reflexivity.
Qed.

Lemma table_state_update self model filters update_data w :
  table_state self w →
  table_state self (update self model filters update_data w).2.
Proof.
  intros Hts.
  destruct (update_world self model filters update_data w)
    as [->|(Hstored & rows & ->)]; [done|].
  by apply (table_state_rewrite self model).
Qed.

Lemma table_state_delete self model filters w :
  table_state self w → table_state self (delete self model filters w).2.
Proof.
  intros Hts.
  destruct (delete_world self model filters w)
    as [->|(Hstored & rows & ->)]; [done|].
  by apply (table_state_rewrite self model).
Qed.

End csv_rewrite.

(** ** Inserting and reading back *)

Section first_occurrences.
Context {A : Type} `{EqDecision A}.


End first_occurrences.

Lemma project_keys (d : list (string * value)) :
  NoDup (Dict.keys d) → Csv.project (Dict.keys d) d = Dict.values d.
Proof.
  intros Hnd. unfold Csv.project, Dict.keys, Dict.values.
  rewrite <- list_fmap_compose. apply list_fmap_ext. intros i [k v] Hi. simpl.
  unfold Dict.get_default. rewrite (dict_get_elem d k v); [done..|].
  by eapply list_elem_of_lookup_2.
Qed.

Section csv_round_trip.
Import Csv.
Variables (self : CsvDB) (model : ModelType) (fields : list string).
Let field_map := class_field_map model.
Let header := mapped_name field_map <$> fields.

Hypothesis Hfields : fields ≠ [].
Hypothesis Hcolumns : NoDup header.
Hypothesis Hback : ∀ k, k ∈ fields →
  Dict.get_default (generate_field_map model)
    (mapped_name field_map k) (mapped_name field_map k) = k.

Implicit Types (m : SheetModel) (w : world).

(** The records of the model type the theorem is about. *)
Let record m : Prop := Dict.keys (model_dump m) = fields ∧ reads_back model m.








End csv_round_trip.




(** C7, at the table of the two users. *)
Lemma get_one_is_head_of_get_all_witness :
  Csv.get_one Examples.db Examples.User [("email", VStr "b@x.com")]
    Examples.users_world
  = (Ok Examples.bob, Examples.users_world).
Proof.
  apply (get_one_is_head_of_get_all Examples.db Examples.User
           [("email", VStr "b@x.com")] Examples.users_world Examples.bob []).
  vm_compute. reflexivity.
Defined.

(** C10, at the table of the two users and a filter nobody matches. *)
Lemma csv_update_delete_not_found_unchanged_witness :
  Csv.update Examples.db Examples.User [("id", VInt 7)] [("name", VStr "Zed")]
    Examples.users_world
  = (Raise NotFoundError, Examples.users_world) ∧
  Csv.delete Examples.db Examples.User [("id", VInt 7)] Examples.users_world
  = (Raise NotFoundError, Examples.users_world).
Proof.
  apply (csv_update_delete_not_found_unchanged Examples.db Examples.User
           [("id", VInt 7)] [("name", VStr "Zed")] Examples.users_world).
  vm_compute. repeat constructor; intros [].
Defined.

(** C1. Where two stored records match the filters, [delete] of the
    delimited-text adapter removes both: three records before, one after. *)
Theorem csv_delete_removes_every_match :
  let filters := [("email", VStr "team@x.com")] in
  let w' := (Csv.delete Examples.db Examples.User filters Examples.team_world).2 in
  Csv.fs Examples.team_world !! "users.csv"
  = Some [["User ID"; "Full Name"; "Email Address"];
          ["1"; "Ann"; "team@x.com"]; ["2"; "Ben"; "team@x.com"];
          ["3"; "Cat"; "cat@x.com"]] ∧
  Csv.get_all Examples.db Examples.User None Examples.team_world
  = [Examples.ann; Examples.ben; Examples.cat] ∧
  Csv.get_all Examples.db Examples.User (Some filters) Examples.team_world
  = [Examples.ann; Examples.ben] ∧
  Csv.fs w' !! "users.csv"
  = Some [["User ID"; "Full Name"; "Email Address"]; ["3"; "Cat"; "cat@x.com"]] ∧
  Csv.get_all Examples.db Examples.User None w' = [Examples.cat].
Proof. vm_compute. done. Qed.

(** The workbook adapter deletes the row whose number is the record's [id]
    plus one: with Bob (id 2) stored before Alice (id 1), deleting Bob
    removes Alice's row and Bob stays. *)
Lemma excel_delete_removes_another_row :
  let w' := (Excel.delete Examples.xdb Examples.User [("id", VInt 2)]
               Examples.users_book).2 in
  (Excel.get_all Examples.xdb Examples.User None Examples.users_book).1
  = Ok [Examples.bob; Examples.alice] ∧
  (Excel.delete Examples.xdb Examples.User [("id", VInt 2)]
     Examples.users_book).1 = Ok Examples.bob ∧
  (Excel.get_all Examples.xdb Examples.User None w').1 = Ok [Examples.bob].
Proof. vm_compute. done. Qed.

(** C4. Where two stored records match the filters, [get_one] returns the
    first of them and [update] assigns the first of them, but [delete]
    returns the last one (and removes both). *)
Theorem csv_delete_resolves_to_last_match :
  let filters := [("email", VStr "team@x.com")] in
  Csv.get_all Examples.db Examples.User None Examples.team_world
  = [Examples.ann; Examples.ben; Examples.cat] ∧
  Csv.first_match filters
    (Csv.get_all Examples.db Examples.User None Examples.team_world)
  = Some Examples.ann ∧
  (Csv.get_one Examples.db Examples.User filters Examples.team_world).1
  = Ok Examples.ann ∧
  (Csv.update Examples.db Examples.User filters [("name", VStr "Anna")]
     Examples.team_world).1
  = Ok (Examples.user 1 "Anna" "team@x.com") ∧
  (Csv.delete Examples.db Examples.User filters Examples.team_world).1
  = Ok Examples.ben.
Proof. vm_compute. done. Qed.




(** C9. [insert_many] with no record returns at once and leaves the world as
    it is: no file or worksheet is created or written, and the header cache
    is not touched. *)
Theorem insert_many_nothing (csv : Csv.CsvDB) (cw : Csv.world)
    (gs : GSheet.GoogleSheetDB) (gw : GSheet.world)
    (xl : Excel.ExcelDB) (xw : Excel.world) :
  Csv.insert_many csv [] cw = (Ok (), cw) ∧
  GSheet.insert_many gs [] gw = (Ok (), gw) ∧
  Excel.insert_many xl [] xw = (Ok (), xw).
Proof. done. Qed.

(** C8. On a worksheet of 27 columns [delete_all] of the remote spreadsheet
    adapter asks to clear the range [A2:[3], which is no range: the request
    is refused and the two data rows stay. *)
Theorem gsheet_delete_all_wide_sheet :
  let w := Examples.wide_sheet 27 in
  let w' := (GSheet.delete_all Examples.gdb (Examples.Wide 27) w).2 in
  length <$> default [] (GSheet.sheets w !! "Wide") = [27; 27; 27] ∧
  GSheet.clear_range 27 3 = Ok "A2:[3" ∧
  (GSheet.delete_all Examples.gdb (Examples.Wide 27) w).1 = Raise APIError ∧
  (GSheet.get_all Examples.gdb (Examples.Wide 27) None w').1
  = Ok [Examples.wide 27 "x"; Examples.wide 27 "y"].
Proof. vm_compute. done. Qed.

(** Up to 26 columns the range covers the data rows: here the table of the
    two users is cleared, its header row stays, and the next record goes
    under it. *)
Lemma gsheet_delete_all_users :
  let w' := (GSheet.delete_all Examples.gdb Examples.User Examples.users_sheet).2 in
  GSheet.clear_range 3 3 = Ok "A2:C3" ∧
  (GSheet.get_all Examples.gdb Examples.User None w').1 = Ok [] ∧
  GSheet.get_all_values
    (default [] (GSheet.sheets
       (GSheet.insert_many Examples.gdb [Examples.bob] w').2 !! "Users"))
  = [["User ID"; "Full Name"; "Email Address"]; ["2"; "Bob"; "b@x.com"]].
Proof. vm_compute. done. Qed.

(** ** The example of the specification

    Alice and Bob in the table ["Users"]: the header row, [get_one] by
    e-mail, [update] then [get_one] by id, [delete_all] then [get_all]. *)
Example users_example :
  let filters_email := [("email", VStr "b@x.com")] in
  let filters_id := [("id", VInt 2)] in
  let w := Examples.users_world in
  let updated := Csv.update Examples.db Examples.User filters_id
                   [("name", VStr "Bobby")] w in
  Csv.fs w !! "users.csv"
  = Some [["User ID"; "Full Name"; "Email Address"];
          ["1"; "Alice"; "a@x.com"]; ["2"; "Bob"; "b@x.com"]] ∧
  (Csv.get_one Examples.db Examples.User filters_email w).1 = Ok Examples.bob ∧
  (Csv.get_one Examples.db Examples.User filters_id updated.2).1
  = Ok (Examples.user 2 "Bobby" "b@x.com") ∧
  Csv.get_all Examples.db Examples.User None
    (Csv.delete_all Examples.db Examples.User updated.2).2 = [].
Proof. vm_compute. done. Qed.

(** [delete_all] at the table of the two users, a table state. *)
Lemma csv_delete_all_users :
  let w' := (Csv.delete_all Examples.db Examples.User Examples.users_world).2 in
  Csv.fs w' !! "users.csv" = Some [["User ID"; "Full Name"; "Email Address"]] ∧
  (∀ filters, Csv.get_all Examples.db Examples.User filters w' = []).
Proof.
  assert (Hts : table_state Examples.db Examples.users_world).
  { apply table_state_insert_many, table_state_empty. }
  split; [by vm_compute|].
  by apply (csv_delete_all_keeps_header Examples.db Examples.User _ Hts).
Qed.

(** * Further properties of the delimited-text adapter *)

(** ** Field assignment *)

Section setattrs_facts.
Implicit Types (item : SheetModel) (update_data : dict string value).





End setattrs_facts.


(** ** Reading *)

(** X2. [get_all] with filters returns the records [get_all] returns without
    them that satisfy every filter equality, in the same order; an empty
    filter dictionary filters nothing. *)
Theorem csv_get_all_filters (self : Csv.CsvDB) (model : ModelType)
    (filters : dict string value) (w : Csv.world) :
  Csv.get_all self model (Some filters) w
  = filter (λ item, matches item filters) (Csv.get_all self model None w) ∧
  Csv.get_all self model (Some []) w = Csv.get_all self model None w.
Proof.
  rewrite !get_all_filtered, get_all_unfiltered. split; [done|].
  by apply filter_all_true.
Qed.

(** X3. [get_one] never changes the world; it raises [NotFoundError] exactly
    when [get_all] with the same filters is empty, and returns the first
    record of that [get_all] otherwise. *)
Theorem csv_get_one_by_get_all (self : Csv.CsvDB) (model : ModelType)
    (filters : dict string value) (w : Csv.world) :
  Csv.get_one self model filters w
  = (match Csv.get_all self model (Some filters) w with
     | [] => Raise NotFoundError
     | item :: _ => Ok item
     end, w).
Proof.
  rewrite get_one_stored, first_match_head, get_all_filtered.
  by destruct (filter _ (stored self model w)).
Qed.

(** X4. A file is read as if its blank lines and the lines with more cells
    than the header row were not there: [get_all] skips both. *)
Theorem csv_get_all_skips_long_lines (self : Csv.CsvDB) (model : ModelType)
    (filters : option (dict string value)) (w : Csv.world)
    (header : list string) (lines : list (list string)) :
  let file lines := Csv.set_fs <[Csv.file_path self := header :: lines]> w in
  Csv.get_all self model filters (file lines)
  = Csv.get_all self model filters
      (file (filter (λ row, row ≠ [] ∧ length row ≤ length header) lines)).
Proof.
  intros file. unfold Csv.get_all, file, Csv.set_fs. cbn [Csv.fs].
  rewrite !lookup_insert_eq, !get_all_loop. cbn [app]. f_equal.
  unfold Csv.DictReader. clear file.
  induction lines as [|row lines IH]; [done|].
  rewrite !filter_cons.
  destruct (decide (row ≠ [])) as [Hrow|Hrow].
  - destruct (decide (row ≠ [] ∧ length row ≤ length header)) as [Hok|Hlong].
    + rewrite filter_cons, decide_True by done.
      rewrite !fmap_cons. cbn [omap list_omap]. by rewrite IH.
    + rewrite fmap_cons. cbn [omap list_omap].
      assert (Hlen : length header < length row).
      { destruct (decide (length row ≤ length header)); [|lia].
        destruct Hlong. done. }
      unfold Csv.parse_row at 1, Csv.DictReader_row at 1.
      rewrite bool_decide_eq_true_2 by done. cbn [Csv.rest]. apply IH.
  - rewrite decide_False by (intros [? _]; done). apply IH.
Qed.

(** ** Writing and reading back *)

Section csv_typed_table.
Import Csv.
Variables (self : CsvDB) (model : ModelType) (fields : list string).
Let field_map := class_field_map model.
Let header := mapped_name field_map <$> fields.

Hypothesis Hfields : fields ≠ [].
Hypothesis Hcolumns : NoDup header.
Hypothesis Hback : ∀ k, k ∈ fields →
  Dict.get_default (generate_field_map model)
    (mapped_name field_map k) (mapped_name field_map k) = k.

Implicit Types (m item : SheetModel) (w : world).

Let record m : Prop := Dict.keys (model_dump m) = fields ∧ reads_back model m.









End csv_typed_table.


Lemma user_well_mapped : well_mapped Examples.User ["id"; "name"; "email"].
Proof. split; [done|]. split; [compute_done | repeat constructor]. Qed.







(** ** What the operations keep *)

Section csv_kept.
Import Csv.
Implicit Types (self : CsvDB) (model : ModelType) (w : world).
Implicit Types (filters update_data : dict string value).

Lemma remember_headers_elsewhere self w path :
  path ≠ file_path self →
  cache_headers (remember_headers self w) !! path = cache_headers w !! path.
Proof.
  intros Hne. unfold remember_headers.
  destruct (cache_headers w !! file_path self); [done|].
  destruct (fs w !! file_path self); [|done].
  unfold set_cache. cbn [cache_headers]. by rewrite lookup_insert_ne.
Qed.

Lemma remember_headers_resolved self w :
  resolved_headers self w ≠ [] →
  cache_headers (remember_headers self w) !! file_path self
  = Some (resolved_headers self w).
Proof.
  unfold resolved_headers, remember_headers.
  destruct (cache_headers w !! file_path self) as [h|] eqn:Hc; [done|].
  destruct (fs w !! file_path self) as [rows|]; [|done].
  intros _. unfold set_cache. cbn [cache_headers from_option].
  by rewrite lookup_insert_eq.
Qed.

(** The world [update] leaves: the one it found, or the file rewritten from
    records under the resolved header row. *)
Lemma update_world_rows self model filters update_data w :
  (update self model filters update_data w).2 = w ∨
  ∃ ms, (update self model filters update_data w).2
        = set_fs <[file_path self :=
                     resolved_headers self w
                       :: (csv_row <$> (row_of model (resolved_headers self w)
                                          <$> ms))]>
            (remember_headers self w).
Proof.
  unfold update; unfold_monad.
  destruct (update_loop _ _ _) as [[[item' data']|]|e]; [|by left..].
  right. rewrite _get_headers_eq. eexists. reflexivity.
Qed.

Lemma delete_world_rows self model filters w :
  (delete self model filters w).2 = w ∨
  ∃ ms, (delete self model filters w).2
        = set_fs <[file_path self :=
                     resolved_headers self w
                       :: (csv_row <$> (row_of model (resolved_headers self w)
                                          <$> ms))]>
            (remember_headers self w).
Proof.
  rewrite delete_eq. destruct (last _) as [found|]; [|by left].
  right. eexists. reflexivity.
Qed.

Lemma rectangular_rewritten self model (h : list string)
    (ms : list SheetModel) w :
  rectangular self
    (set_fs <[file_path self := h :: (csv_row <$> (row_of model h <$> ms))]> w).
Proof.
  intros rows. unfold set_fs. cbn [fs]. rewrite lookup_insert_eq.
  intros [= <-]. cbn [next_row head default]. apply Forall_cons. split; [done|].
  apply Forall_forall. intros row Hrow.
  apply list_elem_of_fmap in Hrow as [vs [-> Hvs]].
  apply list_elem_of_fmap in Hvs as [m [-> _]].
  unfold csv_row, row_of. by rewrite !length_fmap.
Qed.

Lemma rectangular_insert_many self models w :
  table_state self w → rectangular self w →
  rectangular self (insert_many self models w).2.
Proof.
  intros Hts Hrect. destruct models as [|first others]; [done|].
  rewrite insert_many_eq. cbn [snd].
  rewrite (resolved_headers_table_state _ _ Hts).
  intros rows. cbn [fs]. rewrite lookup_insert_eq. intros [= <-].
  assert (Hlines : ∀ h, Forall (λ row : list string, length row = length h)
            (line_of (get_field_map first) h <$> first :: others)).
  { intros h. apply Forall_forall. intros row Hrow.
    apply list_elem_of_fmap in Hrow as [m [-> _]].
    unfold line_of. by rewrite length_fmap. }
  case_bool_decide as Hh.
  - cbn [app next_row head default]. apply Forall_cons. split; [done|].
    apply Hlines.
  - assert (Hold : ∃ old, fs w !! file_path self = Some old ∧ next_row old ≠ []).
    { unfold file_header in Hh.
      destruct (fs w !! file_path self) as [old|]; [|done]. eauto. }
    destruct Hold as (old & Hold & Hne).
    assert (Hfh : file_header self w = next_row old).
    { unfold file_header. by rewrite Hold. }
    rewrite Hold. unfold default.
    assert (Hnext : ∀ more, next_row (old ++ more) = next_row old).
    { intros more. destruct old; [done|]. done. }
    rewrite Hnext. apply Forall_app. split; [by apply Hrect|].
    rewrite Hfh. apply Hlines.
Qed.

Lemma same_elsewhere_refl self w : same_elsewhere self w w.
Proof. by intros path _. Qed.

Lemma same_elsewhere_rewritten self rows w :
  same_elsewhere self w
    (set_fs <[file_path self := rows]> (remember_headers self w)).
Proof.
  intros path Hne. unfold set_fs. cbn [fs cache_headers].
  rewrite lookup_insert_ne by done.
  by rewrite remember_headers_fs, remember_headers_elsewhere.
Qed.

Lemma same_elsewhere_insert_many self models w :
  same_elsewhere self w (insert_many self models w).2.
Proof.
  destruct models as [|first others]; [apply same_elsewhere_refl|].
  rewrite insert_many_eq. cbn [snd]. intros path Hne. cbn [fs cache_headers].
  rewrite lookup_insert_ne by done. split; [done|].
  case_bool_decide; [by rewrite lookup_insert_ne|].
  by apply remember_headers_elsewhere.
Qed.

Lemma same_elsewhere_delete_all self model w :
  same_elsewhere self w (delete_all self model w).2.
Proof.
  rewrite delete_all_eq. cbn [snd]. case_bool_decide.
  - intros path Hne.
    by rewrite remember_headers_fs, remember_headers_elsewhere.
  - apply same_elsewhere_rewritten.
Qed.

End csv_kept.

(** X8. Table states are kept: from a table state (the cache is empty for
    the file or holds its header row, and data rows only come under a set
    header row), every writing operation leads to a table state; the world
    with no file and an empty cache is one. *)
Theorem csv_table_state_kept (self : Csv.CsvDB) (model : ModelType)
    (models : list SheetModel) (filters update_data : dict string value)
    (w : Csv.world) :
  table_state self w →
  table_state self (Csv.mkWorld ∅ ∅) ∧
  table_state self (Csv.insert_many self models w).2 ∧
  table_state self (Csv.update self model filters update_data w).2 ∧
  table_state self (Csv.delete self model filters w).2 ∧
  table_state self (Csv.delete_all self model w).2.
Proof.
  intros Hts. split; [apply table_state_empty|].
  split; [by apply table_state_insert_many|].
  split; [by apply table_state_update|].
  split; [by apply table_state_delete|].
  by apply (delete_all_table_state self model w Hts).
Qed.

Lemma csv_table_state_kept_witness :
  table_state Examples.db (Csv.mkWorld ∅ ∅) ∧
  table_state Examples.db
    (Csv.insert_many Examples.db [Examples.cat] Examples.users_world).2 ∧
  table_state Examples.db
    (Csv.update Examples.db Examples.User [("id", VInt 2)]
       [("name", VStr "Bobby")] Examples.users_world).2 ∧
  table_state Examples.db
    (Csv.delete Examples.db Examples.User [("id", VInt 2)]
       Examples.users_world).2 ∧
  table_state Examples.db
    (Csv.delete_all Examples.db Examples.User Examples.users_world).2.
Proof.
  apply (csv_table_state_kept Examples.db Examples.User [Examples.cat]
           [("id", VInt 2)] [("name", VStr "Bobby")] Examples.users_world).
  split; [right; split; [by vm_compute; eauto | by vm_compute] | by vm_compute].
Defined.

(** X9. Every line the adapter writes has as many cells as the header row:
    from a table state whose lines all have the length of the first one,
    every writing operation leads to such a file again (and [update] and
    [delete] do from any file). *)
Theorem csv_lines_as_wide_as_header (self : Csv.CsvDB) (model : ModelType)
    (models : list SheetModel) (filters update_data : dict string value)
    (w : Csv.world) :
  table_state self w →
  rectangular self w →
  rectangular self (Csv.insert_many self models w).2 ∧
  rectangular self (Csv.update self model filters update_data w).2 ∧
  rectangular self (Csv.delete self model filters w).2 ∧
  rectangular self (Csv.delete_all self model w).2.
Proof.
  intros Hts Hrect. split; [by apply rectangular_insert_many|].
  split; [|split].
  - destruct (update_world_rows self model filters update_data w)
      as [->|[ms ->]]; [done | apply rectangular_rewritten].
  - destruct (delete_world_rows self model filters w)
      as [->|[ms ->]]; [done | apply rectangular_rewritten].
  - rewrite delete_all_eq. cbn [snd]. case_bool_decide.
    + intros rows. rewrite remember_headers_fs. apply Hrect.
    + intros rows. unfold Csv.set_fs. cbn [Csv.fs].
      rewrite lookup_insert_eq. intros [= <-]. by repeat constructor.
Qed.

Lemma users_world_rectangular : rectangular Examples.db Examples.users_world.
Proof.
  intros rows. vm_compute. intros [= <-]. repeat constructor.
Qed.

Lemma csv_lines_as_wide_as_header_witness :
  rectangular Examples.db
    (Csv.insert_many Examples.db [Examples.cat] Examples.users_world).2 ∧
  rectangular Examples.db
    (Csv.update Examples.db Examples.User [("id", VInt 2)]
       [("name", VStr "Bobby")] Examples.users_world).2 ∧
  rectangular Examples.db
    (Csv.delete Examples.db Examples.User [("id", VInt 2)]
       Examples.users_world).2 ∧
  rectangular Examples.db
    (Csv.delete_all Examples.db Examples.User Examples.users_world).2.
Proof.
  apply (csv_lines_as_wide_as_header Examples.db Examples.User [Examples.cat]
           [("id", VInt 2)] [("name", VStr "Bobby")] Examples.users_world).
  - split; [right; split; [by vm_compute; eauto | by vm_compute] | by vm_compute].
  - intros rows. vm_compute. intros [= <-]. repeat constructor.
Defined.

(** X10. An adapter object only touches its own file and its own cache
    entry: whatever the operation, the file and the cached header row of
    every other path stay as they were. *)
Theorem csv_other_files_untouched (self : Csv.CsvDB) (model : ModelType)
    (models : list SheetModel) (filters update_data : dict string value)
    (w : Csv.world) :
  same_elsewhere self w (Csv.insert_many self models w).2 ∧
  same_elsewhere self w (Csv.update self model filters update_data w).2 ∧
  same_elsewhere self w (Csv.delete self model filters w).2 ∧
  same_elsewhere self w (Csv.delete_all self model w).2 ∧
  same_elsewhere self w (Csv.get_one self model filters w).2.
Proof.
  split; [apply same_elsewhere_insert_many|]. split; [|split; [|split]].
  - destruct (update_world self model filters update_data w)
      as [->|(_ & rows & ->)];
      [apply same_elsewhere_refl | apply same_elsewhere_rewritten].
  - destruct (delete_world self model filters w) as [->|(_ & rows & ->)];
      [apply same_elsewhere_refl | apply same_elsewhere_rewritten].
  - apply same_elsewhere_delete_all.
  - rewrite get_one_stored. apply same_elsewhere_refl.
Qed.

(** ** How the operations compose *)

Section csv_compose.
Import Csv.
Implicit Types (self : CsvDB) (model : ModelType) (w : world).

Lemma remember_headers_idem self w :
  remember_headers self (remember_headers self w) = remember_headers self w ∧
  resolved_headers self (remember_headers self w) = resolved_headers self w.
Proof.
  unfold remember_headers, resolved_headers.
  destruct (cache_headers w !! file_path self) as [h|] eqn:Hc.
  - by rewrite Hc.
  - destruct (fs w !! file_path self) as [rows|] eqn:Hf.
    + unfold set_cache. cbn [fs cache_headers].
      by rewrite lookup_insert_eq.
    + by rewrite Hc, Hf.
Qed.

Lemma first_occurrences_not_nil (l : list string) :
  l ≠ [] → first_occurrences l ≠ [].
Proof.
  assert (Hgen : ∀ (l seen : list string), seen ≠ [] →
            foldl (λ seen x, if bool_decide (x ∈ seen) then seen else seen ++ [x])
              seen l ≠ []).
  { clear l. induction l as [|y l IH]; intros seen Hseen; simpl; [done|].
    apply IH. case_bool_decide; [done|]. by destruct seen. }
  destruct l as [|x l]; [done|]. intros _. unfold first_occurrences. simpl.
  by apply Hgen.
Qed.

Lemma insert_many_batches self first others first' others' w :
  get_field_map first' = get_field_map first →
  (resolved_headers self w ≠ [] ∨ model_dump first ≠ []) →
  insert_many self (first' :: others') (insert_many self (first :: others) w).2
  = insert_many self ((first :: others) ++ first' :: others') w.
Proof.
  intros Hmap Hset.
  set (field_map := get_field_map first).
  set (headers :=
    if bool_decide (resolved_headers self w = [])
    then first_occurrences (mapped_name field_map <$> Dict.keys (model_dump first))
    else resolved_headers self w).
  assert (Hheaders : headers ≠ []).
  { subst headers. case_bool_decide as Hh; [|done].
    destruct Hset as [?|Hdump]; [done|].
    apply first_occurrences_not_nil.
    unfold Dict.keys. destruct (model_dump first); [done|]. done. }
  change ((first :: others) ++ first' :: others')
    with (first :: (others ++ first' :: others')).
  rewrite (insert_many_eq self first others w).
  rewrite (insert_many_eq self first (others ++ first' :: others') w).
  fold field_map headers. cbn [snd].
  set (w1 := mkWorld _ _).
  assert (Hcache1 : cache_headers w1 !! file_path self = Some headers).
  { subst w1 headers. cbn [cache_headers]. case_bool_decide as Hh.
    - by rewrite lookup_insert_eq.
    - by apply remember_headers_resolved. }
  assert (Hres1 : resolved_headers self w1 = headers).
  { unfold resolved_headers. by rewrite Hcache1. }
  assert (Hrem1 : remember_headers self w1 = w1).
  { unfold remember_headers. by rewrite Hcache1. }
  rewrite (insert_many_eq self first' others' w1).
  rewrite Hres1, Hrem1, bool_decide_eq_false_2 by done.
  rewrite Hmap. fold field_map. subst w1. cbn [fs cache_headers].
  rewrite lookup_insert_eq, insert_insert_eq. cbn [default].
  f_equal. f_equal. f_equal. unfold id.
  rewrite <- app_assoc. f_equal.
  by rewrite <- (fmap_app _ (first :: others) (first' :: others')).
Qed.


End csv_compose.

(** X11. Inserting in two batches is inserting once: when the second batch
    starts with a record of the same field map, and the header row is set
    or the first record has a field, [insert_many] of the second batch
    after [insert_many] of the first leaves the world of [insert_many] of
    both together. *)
Theorem csv_insert_many_batches (self : Csv.CsvDB)
    (first first' : SheetModel) (others others' : list SheetModel)
    (w : Csv.world) :
  get_field_map first' = get_field_map first →
  (resolved_headers self w ≠ [] ∨ model_dump first ≠ []) →
  Csv.insert_many self (first' :: others')
    (Csv.insert_many self (first :: others) w).2
  = Csv.insert_many self ((first :: others) ++ first' :: others') w.
Proof. apply insert_many_batches. Qed.

Lemma csv_insert_many_batches_witness :
  Csv.insert_many Examples.db [Examples.cat]
    (Csv.insert_many Examples.db [Examples.ann; Examples.ben]
       Examples.empty_world).2
  = Csv.insert_many Examples.db
      ([Examples.ann; Examples.ben] ++ [Examples.cat]) Examples.empty_world.
Proof.
  apply (csv_insert_many_batches Examples.db Examples.ann Examples.cat
           [Examples.ben] [] Examples.empty_world).
  - reflexivity.
  - right. by vm_compute.
Defined.

(** X12. Resolving the header row is stable: a second [_get_headers]
    returns the same header row as the first and changes nothing more. *)
Theorem csv_get_headers_stable (self : Csv.CsvDB) (w : Csv.world) :
  Csv._get_headers self (Csv._get_headers self w).2 = Csv._get_headers self w.
Proof.
  rewrite !_get_headers_eq. cbn [snd].
  by destruct (remember_headers_idem self w) as [-> ->].
Qed.

(** X13. [delete_all] twice is [delete_all] once. *)
Theorem csv_delete_all_idempotent (self : Csv.CsvDB) (model : ModelType)
    (w : Csv.world) :
  Csv.delete_all self model (Csv.delete_all self model w).2
  = Csv.delete_all self model w.
Proof.
  rewrite (delete_all_eq self model w). cbn [snd].
  destruct (remember_headers_idem self w) as [Hrem Hres].
  destruct (decide (resolved_headers self w = [])) as [Hh|Hh].
  - rewrite (bool_decide_eq_true_2 _ Hh), delete_all_eq.
    by rewrite Hres, (bool_decide_eq_true_2 _ Hh), Hrem.
  - rewrite (bool_decide_eq_false_2 _ Hh), delete_all_eq.
    set (w1 := Csv.set_fs _ _).
    assert (Hc : Csv.cache_headers w1 !! Csv.file_path self
                 = Some (resolved_headers self w)).
    { subst w1. unfold Csv.set_fs. cbn [Csv.cache_headers].
      by apply remember_headers_resolved. }
    assert (Hres1 : resolved_headers self w1 = resolved_headers self w).
    { unfold resolved_headers at 1. by rewrite Hc. }
    assert (Hrem1 : remember_headers self w1 = w1).
    { unfold remember_headers. by rewrite Hc. }
    rewrite Hres1, Hrem1, bool_decide_eq_false_2 by done.
    subst w1. unfold Csv.set_fs. cbn [Csv.fs Csv.cache_headers].
    by rewrite insert_insert_eq.
Qed.



(** X15. When [update] finds a record and assigns it, it rewrites the whole
    file from the records [get_all] parsed: the resolved header row, then
    one line per parsed record, the found one with its new values.  Lines
    that did not parse are not written back. *)
Theorem csv_update_rewrites_file (self : Csv.CsvDB) (model : ModelType)
    (filters update_data : dict string value) (w : Csv.world)
    (before after : list SheetModel) (item item' : SheetModel) :
  Csv.get_all self model None w = before ++ item :: after →
  Forall (λ item, ¬ matches item filters) before →
  matches item filters →
  setattrs item update_data = Ok item' →
  let headers := resolved_headers self w in
  let w' := (Csv.update self model filters update_data w).2 in
  (Csv.update self model filters update_data w).1 = Ok item' ∧
  Csv.fs w' !! Csv.file_path self
  = Some (headers :: (csv_row <$> (Csv.row_of model headers
                                     <$> before ++ item' :: after))) ∧
  Csv.cache_headers w' = Csv.cache_headers (remember_headers self w).
Proof.
  intros Hall Hbefore Hitem Hset headers w'. subst w'.
  rewrite (update_first _ _ _ _ _ _ _ _ _ Hall Hbefore Hitem Hset).
  cbn [fst snd]. unfold Csv.set_fs. cbn [Csv.fs Csv.cache_headers].
  by rewrite lookup_insert_eq.
Qed.

Lemma csv_update_rewrites_file_witness :
  let w' := (Csv.update Examples.db Examples.User [("id", VInt 2)]
               [("name", VStr "Bobby")] Examples.users_world).2 in
  (Csv.update Examples.db Examples.User [("id", VInt 2)]
     [("name", VStr "Bobby")] Examples.users_world).1
  = Ok (Examples.user 2 "Bobby" "b@x.com") ∧
  Csv.fs w' !! "users.csv"
  = Some (resolved_headers Examples.db Examples.users_world
            :: (csv_row <$> (Csv.row_of Examples.User
                   (resolved_headers Examples.db Examples.users_world)
                 <$> [Examples.alice] ++ Examples.user 2 "Bobby" "b@x.com" :: []))) ∧
  Csv.cache_headers w'
  = Csv.cache_headers (remember_headers Examples.db Examples.users_world).
Proof.
  apply (csv_update_rewrites_file Examples.db Examples.User [("id", VInt 2)]
           [("name", VStr "Bobby")] Examples.users_world
           [Examples.alice] [] Examples.bob).
  - by vm_compute.
  - vm_compute. repeat constructor. intros [].
  - by vm_compute.
  - by vm_compute.
Defined.

(** X16. [delete] on any file: it raises [NotFoundError] and changes
    nothing when no parsed record matches; otherwise it returns the last
    matching record and rewrites the file with the resolved header row and
    one line per parsed record that does not match.  Every matching record
    is gone, and so is every line that did not parse. *)
Theorem csv_delete_rewrites_file (self : Csv.CsvDB) (model : ModelType)
    (filters : dict string value) (w : Csv.world) :
  let data := Csv.get_all self model None w in
  let headers := resolved_headers self w in
  Csv.delete self model filters w
  = match last (filter (λ item, matches item filters) data) with
    | None => (Raise NotFoundError, w)
    | Some item =>
        (Ok item,
         Csv.set_fs <[Csv.file_path self :=
                        headers :: (csv_row <$> (Csv.row_of model headers <$>
                          filter (λ item, ¬ matches item filters) data))]>
           (remember_headers self w))
    end.
Proof. intros data headers. subst data. by rewrite delete_eq, get_all_unfiltered. Qed.

(** X17. [delete_all] in a table state: the call returns, the header row is
    unchanged and no data row is left; a file with no line after the header
    row (or no file) is left as it is; [get_all] then returns the empty
    sequence whatever the filters; and when the header row is set, records
    inserted next go under it. *)
Theorem csv_delete_all_table (self : Csv.CsvDB) (model : ModelType)
    (w : Csv.world) :
  table_state self w →
  let w' := (Csv.delete_all self model w).2 in
  (Csv.delete_all self model w).1 = Ok () ∧
  file_header self w' = file_header self w ∧
  data_rows self w' = [] ∧
  (at_most_header self w → Csv.fs w' = Csv.fs w) ∧
  (∀ filters, Csv.get_all self model filters w' = []) ∧
  (file_header self w ≠ [] → ∀ first others,
     Csv.fs (Csv.insert_many self (first :: others) w').2 !! Csv.file_path self
     = Some (file_header self w
               :: (line_of (get_field_map first) (file_header self w)
                     <$> first :: others))).
Proof.
  intros Hts w'.
  destruct (delete_all_table_state self model w Hts)
    as (Hok & Hts' & Hhd & Hdata & Hnoop & _).
  split; [done|]. split; [done|]. split; [done|]. split; [done|]. split.
  - intros filters. by apply delete_all_then_read.
  - intros Hh first others.
    by apply (delete_all_then_insert self model first others w).
Qed.

Lemma csv_delete_all_table_witness :
  let w' := (Csv.delete_all Examples.db Examples.User Examples.users_world).2 in
  (Csv.delete_all Examples.db Examples.User Examples.users_world).1 = Ok () ∧
  file_header Examples.db w' = file_header Examples.db Examples.users_world ∧
  data_rows Examples.db w' = [] ∧
  (at_most_header Examples.db Examples.users_world →
   Csv.fs w' = Csv.fs Examples.users_world) ∧
  (∀ filters, Csv.get_all Examples.db Examples.User filters w' = []) ∧
  (file_header Examples.db Examples.users_world ≠ [] → ∀ first others,
     Csv.fs (Csv.insert_many Examples.db (first :: others) w').2
       !! Csv.file_path Examples.db
     = Some (file_header Examples.db Examples.users_world
               :: (line_of (get_field_map first)
                     (file_header Examples.db Examples.users_world)
                     <$> first :: others))).
Proof.
  apply (csv_delete_all_table Examples.db Examples.User Examples.users_world).
  split; [right; split; [by vm_compute; eauto | by vm_compute] | by vm_compute].
Defined.

(** * Further properties of the record model *)

(** X18. [generate_field_map()] on any field map: a header is sent to the
    last field the map sends to it (so when two fields share a header the
    earlier one is shadowed), a text that is no header of the map is sent
    nowhere, and the keys are the headers in the order of their first
    occurrence. *)
Theorem generate_field_map_last_wins (cls : ModelType) (h : string) :
  Dict.get (generate_field_map cls) h
  = fst <$> last (filter (λ kv, kv.2 = h) (class_field_map cls)) ∧
  (h ∉ Dict.values (class_field_map cls) →
   Dict.get (generate_field_map cls) h = None) ∧
  Dict.keys (generate_field_map cls)
  = first_occurrences (Dict.values (class_field_map cls)).
Proof.
  unfold generate_field_map, Dict.invert.
  assert (Hget : Dict.get (Dict.of_pairs ((λ kv : string * string, (kv.2, kv.1))
                              <$> class_field_map cls)) h
                 = fst <$> last (filter (λ kv, kv.2 = h) (class_field_map cls))).
  { rewrite dict_get_of_pairs.
    rewrite (list_filter_fmap_pre _ (λ kv : string * string, kv.1 = h)).
    rewrite fmap_last. by destruct (last _) as [[??]|]. }
  split; [done|]. split.
  - intros Hnot. rewrite Hget.
    destruct (last _) as [[k h']|] eqn:Hlast; [|done].
    apply last_Some_elem_of, list_elem_of_filter in Hlast as [Heq Hin].
    simpl in Heq. subst h'. destruct Hnot. unfold Dict.values.
    apply list_elem_of_fmap. by exists (k, h).
  - rewrite dict_keys_of_pairs. f_equal.
    unfold Dict.keys, Dict.values. by rewrite <- list_fmap_compose.
Qed.

(** X19. Mapping a field name to its storage column ([field_map.get(k, k)],
    as [insert_many] does) and the column back ([generate_field_map().get(h,
    h)], as [get_all] does) returns the field name, for a field of the map
    and for a field outside it alike, when no two fields of the map share a
    header and the field, if outside the map, is not named like one of the
    map's headers. *)
Theorem field_name_round_trip (cls : ModelType) (k : string) :
  NoDup (Dict.keys (class_field_map cls)) →
  NoDup (Dict.values (class_field_map cls)) →
  (k ∉ Dict.keys (class_field_map cls) → k ∉ Dict.values (class_field_map cls)) →
  let h := Dict.get_default (class_field_map cls) k k in
  Dict.get_default (generate_field_map cls) h h = k.
Proof. intros Hk Hv Hout h. by apply mapped_name_maps_back. Qed.

Lemma field_name_round_trip_witness :
  let h := Dict.get_default (class_field_map Examples.User) "name" "name" in
  Dict.get_default (generate_field_map Examples.User) h h = "name".
Proof.
  apply (field_name_round_trip Examples.User "name").
  - compute_done.
  - compute_done.
  - intros Hnot. destruct Hnot. compute_done.
Defined.

(** * Further properties of the workbook adapter *)

Section excel_facts.
Implicit Types (self : Excel.ExcelDB) (model : ModelType) (w : Excel.world).

Lemma excel_get_workbook_loaded self w :
  ∃ wb, Excel._get_workbook self w
        = (Ok (), Excel.mkWorld
                    (match Excel._workbook w with
                     | Some _ => Excel.files w
                     | None =>
                         from_option (λ _, Excel.files w)
                           (<[Excel.file_path self := wb]> (Excel.files w))
                           (Excel.files w !! Excel.file_path self)
                     end)
                    (Excel.cache_headers w) (Some wb)) ∧
        wb = from_option id
               (default [("Sheet", [])] (Excel.files w !! Excel.file_path self))
               (Excel._workbook w).
Proof.
  unfold Excel._get_workbook. destruct w as [files cache [wb|]]; simpl.
  - by exists wb.
  - destruct (files !! Excel.file_path self) as [wb|]; simpl; eauto.
Qed.

(** A successful [get_all] leaves a loaded workbook that has the sheet. *)
Lemma excel_get_all_Ok self model filters w data w1 :
  Excel.get_all self model filters w = (Ok data, w1) →
  ∃ wb, Excel._workbook w1 = Some wb ∧
        get_class_sheet_name model ∈ Dict.keys wb.
Proof.
  unfold Excel.get_all. unfold_monad.
  destruct (excel_get_workbook_loaded self w) as (wb & -> & _).
  unfold Excel._get_worksheet. unfold_monad. cbn [Excel.workbook Excel._workbook default].
  case_bool_decide as Hin; [|done].
  unfold Excel._get_headers. cbn [Excel.cache_headers].
  destruct (Excel.cache_headers w !! get_class_sheet_name model);
    intros [= <- <-]; exists wb; by split.
Qed.

End excel_facts.

(** X20. [get_all] on a path where no workbook file exists creates the file
    (a new workbook with its single empty sheet ["Sheet"]), keeps it
    loaded, and then raises [ValueError] for the missing sheet: the read
    leaves a file behind. *)
Theorem excel_get_all_creates_file (self : Excel.ExcelDB) (model : ModelType)
    (filters : option (dict string value)) (w : Excel.world) :
  Excel.files w !! Excel.file_path self = None →
  Excel._workbook w = None →
  get_class_sheet_name model ≠ "Sheet" →
  Excel.get_all self model filters w
  = (Raise ValueError,
     Excel.mkWorld (<[Excel.file_path self := [("Sheet", [])]]> (Excel.files w))
       (Excel.cache_headers w) (Some [("Sheet", [])])).
Proof.
  intros Hfile Hwb Hname. unfold Excel.get_all, Excel._get_workbook. unfold_monad.
  rewrite Hwb, Hfile. unfold Excel._get_worksheet. unfold_monad.
  cbn [Excel.workbook Excel._workbook default Dict.keys fmap list_fmap fst].
  rewrite bool_decide_eq_false_2; [done|].
  intros Hin. apply list_elem_of_singleton in Hin. done.
Qed.

Lemma excel_get_all_creates_file_witness :
  Excel.get_all Examples.xdb Examples.User None Examples.empty_disk
  = (Raise ValueError,
     Excel.mkWorld (<["book.xlsx" := [("Sheet", [])]]> ∅) ∅
       (Some [("Sheet", [])])).
Proof.
  apply (excel_get_all_creates_file Examples.xdb Examples.User None
           Examples.empty_disk); done.
Defined.

(** X21. [delete] of the workbook adapter returns the first matching record
    of [get_all], but the row it removes is the one numbered [int(id) + 1],
    wherever the record is: the sheet loses that row (none, beyond the last
    row) and the workbook is saved.  The sheet is one whose rows are all of
    the same width, without empty cells, and the [id] is not negative. *)
Theorem excel_delete_removes_row_of_id (self : Excel.ExcelDB)
    (model : ModelType) (filters : dict string value) (w w1 : Excel.world)
    (data : list SheetModel) (item : SheetModel) (id : value) (n : Z) :
  Excel.get_all self model None w = (Ok data, w1) →
  Excel.first_match filters data = Some item →
  Dict.get (model_dump item) "id" = Some id →
  py_int id = Ok n →
  (0 ≤ n)%Z →
  let name := get_class_sheet_name model in
  let wb := Excel.workbook w1 in
  xl_full (Dict.get_default wb name []) →
  let wb' := Dict.set wb name
               (Excel.delete_rows (n + 1) (Dict.get_default wb name [])) in
  Excel.delete self model filters w
  = (Ok item,
     Excel.mkWorld (<[Excel.file_path self := wb']> (Excel.files w1))
       (Excel.cache_headers w1) (Some wb')).
Proof.
  intros Hall Hfirst Hid Hint _ name wb _ wb'.
  destruct (excel_get_all_Ok _ _ _ _ _ _ Hall) as (wb1 & Hwb1 & Hin).
  unfold Excel.delete. unfold_monad. rewrite Hall, Hfirst.
  subst wb' wb name. clear Hall.
  destruct w1 as [files1 cache1 loaded]. cbn [Excel._workbook] in Hwb1.
  subst loaded.
  unfold Excel.delete_row, Excel._get_workbook. unfold_monad.
  cbn [Excel._workbook].
  unfold Excel._get_worksheet. unfold_monad.
  cbn [Excel.workbook Excel._workbook default].
  rewrite bool_decide_eq_true_2 by done.
  rewrite Hid. cbn [from_option]. rewrite Hint.
  unfold Excel.save, Excel.set_workbook. unfold_monad.
  by cbn [Excel.workbook Excel._workbook Excel.files Excel.cache_headers
          default].
Qed.

Lemma excel_delete_removes_row_of_id_witness :
  let w1 := (Excel.get_all Examples.xdb Examples.User None
               Examples.users_book).2 in
  let wb := Excel.workbook w1 in
  let wb' := Dict.set wb "Users"
               (Excel.delete_rows (2 + 1) (Dict.get_default wb "Users" [])) in
  Excel.delete Examples.xdb Examples.User [("id", VInt 2)] Examples.users_book
  = (Ok Examples.bob,
     Excel.mkWorld (<[Excel.file_path Examples.xdb := wb']> (Excel.files w1))
       (Excel.cache_headers w1) (Some wb')).
Proof.
  apply (excel_delete_removes_row_of_id Examples.xdb Examples.User
           [("id", VInt 2)] Examples.users_book
           (Excel.get_all Examples.xdb Examples.User None Examples.users_book).2
           [Examples.bob; Examples.alice] Examples.bob (VInt 2) 2).
  - by vm_compute.
  - by vm_compute.
  - by vm_compute.
  - by vm_compute.
  - lia.
  - by vm_compute.
Defined.

(** ** Inserting into a new sheet and reading back *)

Section dict_more.
Context {K V : Type} `{EqDecision K}.
Implicit Types (d : list (K * V)) (k : K) (v : V).

Lemma dict_set_set d k v v' : Dict.set (Dict.set d k v) k v' = Dict.set d k v'.
Proof.
  induction d as [|[k0 v0] d IH]; simpl.
  - by rewrite decide_True.
  - destruct (decide (k0 = k)) as [->|Hne]; simpl.
    + by rewrite decide_True.
    + by rewrite decide_False, IH.
Qed.

Lemma dict_get_default_set d k v v' :
  Dict.get_default (Dict.set d k v) k v' = v.
Proof. unfold Dict.get_default. by rewrite dict_get_set_eq. Qed.

Lemma dict_keys_set_elem d k v : k ∈ Dict.keys (Dict.set d k v).
Proof.
  rewrite dict_keys_set. case_bool_decide; [done|].
  apply elem_of_app. right. apply list_elem_of_here.
Qed.
End dict_more.

Section excel_round_trip.
Variables (self : Excel.ExcelDB) (model : ModelType) (fields : list string).
Let field_map := class_field_map model.
Let header := mapped_name field_map <$> fields.
Let name := get_class_sheet_name model.

Hypothesis Hfields : fields ≠ [].
Hypothesis Hcolumns : NoDup header.
Hypothesis Hback : ∀ k, k ∈ fields →
  Dict.get_default (generate_field_map model)
    (mapped_name field_map k) (mapped_name field_map k) = k.

Implicit Types (m : SheetModel) (w : Excel.world).

Let record m : Prop :=
  Dict.keys (model_dump m) = fields ∧ model_new model (model_dump m) = Some m.

Lemma xl_record_names m :
  record m → get_sheet_name m = name ∧ get_field_map m = field_map.
Proof.
  intros [_ Hnew]. unfold model_new in Hnew.
  destruct (validate model (model_dump m)); simplify_eq/=. done.
Qed.

Lemma xl_mapped_row m :
  record m →
  Dict.map_keys (λ k, Dict.get_default field_map k k) (model_dump m)
  = (λ kv, (mapped_name field_map kv.1, kv.2)) <$> model_dump m.
Proof.
  intros [Hkeys _]. apply dict_map_keys_inj. by rewrite Hkeys.
Qed.

Lemma xl_mapped_keys m :
  record m →
  Dict.keys (Dict.map_keys (λ k, Dict.get_default field_map k k) (model_dump m))
  = header.
Proof.
  intros Hrec. rewrite (xl_mapped_row m Hrec). destruct Hrec as [Hkeys _].
  subst header. rewrite <- Hkeys. unfold Dict.keys.
  by rewrite <- !list_fmap_compose.
Qed.

(** The row appended for a record holds its values, in field order. *)
Lemma xl_row_values m :
  record m →
  Excel.row_get (Dict.map_keys (λ k, Dict.get_default field_map k k)
                   (model_dump m)) <$> (VStr <$> header)
  = Dict.values (model_dump m).
Proof.
  intros Hrec. rewrite <- list_fmap_compose.
  pose proof (xl_mapped_keys m Hrec) as Hk.
  set (d := Dict.map_keys _ _) in *.
  transitivity (Csv.project (Dict.keys d) d).
  { rewrite Hk. done. }
  rewrite project_keys by (by rewrite Hk).
  subst d. rewrite (xl_mapped_row m Hrec). unfold Dict.values.
  by rewrite <- list_fmap_compose.
Qed.

Lemma xl_width (ws : list (list value)) (n : nat) :
  1 ≤ n → ws ≠ [] → Forall (λ r, length r = n) ws → Excel.width ws = n.
Proof.
  intros Hn Hne Hall. unfold Excel.width.
  induction Hall as [|r ws Hr Hall IH]; [done|]. simpl.
  destruct ws as [|r' ws].
  - simpl. lia.
  - rewrite IH by done. lia.
Qed.

Lemma xl_pad_full (n : nat) (r : list value) : length r = n → Excel.pad n r = r.
Proof.
  intros <-. unfold Excel.pad. rewrite Nat.sub_diag. simpl. apply app_nil_r.
Qed.

Lemma xl_fields_length m : record m → length (Dict.values (model_dump m)) = length fields.
Proof.
  intros [<- _]. unfold Dict.keys, Dict.values. by rewrite !length_fmap.
Qed.

(** A row of values parses back to the record. *)
Lemma xl_row_parses m filters_absent data :
  record m →
  filters_absent = None →
  Excel.get_all_step model (VStr <$> header) filters_absent data
    (Dict.values (model_dump m))
  = data ++ [m].
Proof.
  intros Hrec ->. unfold Excel.get_all_step.
  pose proof (xl_fields_length m Hrec) as Hlen. destruct Hrec as [Hkeys Hnew].
  assert (Hpairs :
    (λ hv : value * value, (Excel.field_of (generate_field_map model) hv.1, hv.2))
      <$> zip (VStr <$> header) (Dict.values (model_dump m))
    = (λ kv : string * value, (VStr kv.1, kv.2)) <$> model_dump m).
  { rewrite <- (zip_fst_snd (model_dump m)) at 2.
    fold (Dict.keys (model_dump m)) (Dict.values (model_dump m)).
    rewrite Hkeys. subst header.
    assert (Hall : Forall (λ k, k ∈ fields) fields).
    { apply Forall_forall. auto. }
    revert Hall. generalize (Dict.values (model_dump m)) as vs.
    generalize fields at 2 3 4 as ks.
    induction ks as [|k ks IH]; intros [|v vs] Hall; simpl; [done..|].
    apply Forall_cons in Hall as [Hk Hall].
    rewrite IH by done. by rewrite (Hback k Hk). }
  rewrite Hpairs.
  assert (Hnd : NoDup (Dict.keys ((λ kv : string * value, (VStr kv.1, kv.2))
                                    <$> model_dump m))).
  { unfold Dict.keys in *. rewrite <- list_fmap_compose.
    change (NoDup (VStr ∘ fst <$> model_dump m)).
    rewrite (list_fmap_compose fst VStr), Hkeys.
    apply NoDup_fmap_2; [by intros ?? [= ->]|].
    by apply (NoDup_fmap_1 (mapped_name field_map)). }
  rewrite dict_of_pairs_NoDup by done.
  assert (Hkw : Excel.keywords ((λ kv : string * value, (VStr kv.1, kv.2))
                                  <$> model_dump m) = Some (model_dump m)).
  { unfold Excel.keywords. generalize (model_dump m) as d.
    induction d as [|[k v] d IH]; [done|].
    rewrite fmap_cons. cbn [mapM fst snd]. rewrite IH. done. }
  rewrite Hkw. cbn [mbind option_bind]. by rewrite Hnew.
Qed.

Lemma xl_read_rows models data :
  Forall record models →
  foldl (Excel.get_all_step model (VStr <$> header) None) data
    (Dict.values ∘ model_dump <$> models)
  = data ++ models.
Proof.
  intros Hrecs. revert data.
  induction Hrecs as [|m models Hm _ IH]; intros data; simpl.
  - by rewrite app_nil_r.
  - rewrite (xl_row_parses m None data Hm eq_refl), IH.
    by rewrite <- app_assoc.
Qed.

(** Appending the rows one by one. *)
Lemma xl_append_loop {A} (sheet : string) (f : A → list value)
    (x : A) (xs : list A) w :
  for_ (x :: xs) (λ row,
    modify (Excel.set_workbook (λ wb,
      Dict.set wb sheet (Dict.get_default wb sheet [] ++ [f row])))) w
  = (Ok (),
     Excel.mkWorld (Excel.files w) (Excel.cache_headers w)
       (Some (Dict.set (Excel.workbook w) sheet
                (Dict.get_default (Excel.workbook w) sheet []
                   ++ (f <$> x :: xs))))).
Proof.
  revert x w. induction xs as [|x' xs IH]; intros x w.
  - done.
  - change (for_ (x :: x' :: xs) ?body w)
      with (for_ (x' :: xs) body
              (Excel.set_workbook (λ wb,
                 Dict.set wb sheet (Dict.get_default wb sheet [] ++ [f x])) w)).
    rewrite IH. unfold Excel.set_workbook. cbn [Excel.files Excel.cache_headers].
    set (wb := Excel.workbook w).
    unfold Excel.workbook. cbn [Excel._workbook].
    change (default [] (Some ?b)) with b.
    rewrite dict_get_default_set, dict_set_set. by rewrite <- app_assoc.
Qed.

Lemma xl_workbook_loaded files cache (wb : list (string * list (list value))) :
  Excel.workbook (Excel.mkWorld files cache (Some wb)) = wb.
Proof. done. Qed.

Lemma bind_Ok {W A B} (m : M W A) (f : A → M W B) (w w' : W) (a : A) :
  m w = (Ok a, w') → bind m f w = f a w'.
Proof. intros Hm. unfold bind. by rewrite Hm. Qed.

(** [_get_worksheet] with headers, when the workbook has no such sheet. *)
Lemma xl_get_worksheet_new (sheet : string) (headers : list string) w :
  sheet ∉ Dict.keys (Excel.workbook w) →
  let wb := Dict.set (Excel.workbook w) sheet [VStr <$> headers] in
  Excel._get_worksheet self sheet (Some headers) w
  = (Ok sheet,
     Excel.mkWorld (<[Excel.file_path self := wb]> (Excel.files w))
       (<[sheet := VStr <$> headers]> (Excel.cache_headers w)) (Some wb)).
Proof.
  intros Hnew wb. unfold Excel._get_worksheet. unfold_monad.
  by rewrite bool_decide_eq_false_2.
Qed.

Lemma xl_get_headers_cached (ws sheet : string) (headers : list value) w :
  Excel.cache_headers w !! sheet = Some headers →
  Excel._get_headers self ws sheet w = (Ok headers, w).
Proof. intros Hc. unfold Excel._get_headers. by rewrite Hc. Qed.

(** What [insert_many] leaves in a workbook that did not have the sheet. *)
Lemma xl_insert_new_sheet first others w :
  Forall record (first :: others) →
  name ∉ Dict.keys (Excel.workbook (Excel._get_workbook self w).2) →
  ∃ files wb,
    Excel.insert_many self (first :: others) w
    = (Ok (), Excel.mkWorld files
                (<[name := VStr <$> header]> (Excel.cache_headers w))
                (Some wb)) ∧
    files !! Excel.file_path self = Some wb ∧
    name ∈ Dict.keys wb ∧
    Dict.get_default wb name []
    = (VStr <$> header) :: (Dict.values ∘ model_dump <$> first :: others) ∧
    (∀ other, other ≠ name →
       Dict.get wb other
       = Dict.get (Excel.workbook (Excel._get_workbook self w).2) other).
Proof.
  intros Hrecs. pose proof (Forall_inv Hrecs) as Hfirst.
  destruct (xl_record_names first Hfirst) as [Hname Hmap].
  destruct (excel_get_workbook_loaded self w) as (wb0 & Hload & _).
  rewrite Hload. cbn [snd]. set (w0 := Excel.mkWorld _ _ _) in *.
  intros Hnew.
  unfold Excel.insert_many. rewrite Hname, Hmap. fold name field_map.
  cbv zeta. rewrite (bind_Ok _ _ _ _ _ Hload).
  rewrite (fmap_cons _ first others). cbn [head].
  change (default [] (Some ?x)) with x.
  rewrite (xl_mapped_keys first Hfirst).
  rewrite (bind_Ok _ _ _ _ _ (xl_get_worksheet_new name header w0 Hnew)).
  set (wb1 := Dict.set (Excel.workbook w0) name [VStr <$> header]).
  erewrite bind_Ok;
    [|apply xl_get_headers_cached; cbn [Excel.cache_headers];
      apply lookup_insert_eq].
  rewrite (bind_Ok _ _ _ _ _
             (xl_append_loop name
                (λ row, Excel.row_get row <$> (VStr <$> header)) _ _ _)).
  unfold Excel.save, modify.
  cbn [Excel._workbook Excel.files Excel.cache_headers].
  rewrite !xl_workbook_loaded.
  subst wb1. rewrite dict_get_default_set, dict_set_set.
  eexists _, _. split; [reflexivity|].
  split; [by rewrite lookup_insert_eq|].
  split; [apply dict_keys_set_elem|]. split.
  - rewrite dict_get_default_set. cbn [app].
    f_equal. rewrite !fmap_cons. f_equal; [by apply xl_row_values|].
    rewrite <- list_fmap_compose.
    apply list_fmap_ext. intros i m Hi. simpl.
    apply xl_row_values.
    by eapply (proj1 (Forall_lookup _ _) (Forall_inv_tail Hrecs)).
  - intros other Hother. by rewrite dict_get_set_ne.
Qed.

Lemma xl_insert_then_get_all models w :
  models ≠ [] →
  Forall record models →
  name ∉ Dict.keys (Excel.workbook (Excel._get_workbook self w).2) →
  (Excel.insert_many self models w).1 = Ok () ∧
  (Excel.get_all self model None (Excel.insert_many self models w).2).1
  = Ok models.
Proof.
  intros Hne Hrecs Hnew. destruct models as [|first others]; [done|].
  destruct (xl_insert_new_sheet first others w Hrecs Hnew)
    as (files & wb & -> & _ & Hin & Hsheet & _).
  split; [done|]. cbn [snd]. set (w1 := Excel.mkWorld _ _ _).
  unfold Excel.get_all. cbv zeta. fold name.
  rewrite (bind_Ok _ _ w1 w1 ()) by done.
  rewrite (bind_Ok _ _ w1 w1 name).
  2:{ unfold Excel._get_worksheet. unfold_monad. subst w1.
      rewrite xl_workbook_loaded. by rewrite bool_decide_eq_true_2. }
  rewrite (bind_Ok _ _ w1 w1 (VStr <$> header))
    by (apply xl_get_headers_cached; apply lookup_insert_eq).
  unfold bind, gets, ret. cbn [fst]. subst w1.
  rewrite xl_workbook_loaded, Hsheet. f_equal.
  set (rows := Dict.values ∘ model_dump <$> first :: others).
  assert (Hn : 1 ≤ length fields) by (destruct fields; [done | simpl; lia]).
  assert (Hrows : Forall (λ r : list value, length r = length fields) rows).
  { subst rows. apply Forall_fmap. eapply Forall_impl; [exact Hrecs|].
    intros m Hm. simpl. by apply xl_fields_length. }
  assert (Hw : Excel.width ((VStr <$> header) :: rows) = length fields).
  { apply xl_width; [done | done |]. apply Forall_cons. split; [|done].
    subst header. by rewrite !length_fmap. }
  unfold Excel.rows_from_2. rewrite Hw. cbn [drop].
  replace (Excel.pad (length fields) <$> rows) with rows.
  - subst rows. by rewrite (xl_read_rows (first :: others) [] Hrecs).
  - symmetry. rewrite <- (list_fmap_id rows) at 2.
    apply list_fmap_ext. intros i r Hi. simpl. apply xl_pad_full.
    by eapply (proj1 (Forall_lookup _ _) Hrows).
Qed.

End excel_round_trip.

Lemma xl_title_fresh (names : list string) (title : string) :
  xl_title names title → title ∉ names.
Proof.
  intros (_ & _ & _ & Hnames) Hin.
  by destruct (proj1 (Forall_forall _ _) Hnames title Hin) as [_ []].
Qed.

(** X22. Records inserted into a workbook that has no sheet of the model's
    name are read back by [get_all] as they were inserted: the same
    records, in the same order, with their values (numbers stay numbers,
    [None] stays [None]).  This holds for a model whose fields map to
    distinct columns that map back, for records that validation accepts as
    they are and for texts and a sheet title that openpyxl stores as
    given. *)
Theorem excel_insert_many_then_get_all (self : Excel.ExcelDB)
    (model : ModelType) (fields : list string) (models : list SheetModel)
    (w : Excel.world) :
  well_mapped model fields →
  Forall xl_text (mapped_name (class_field_map model) <$> fields) →
  models ≠ [] →
  Forall (xl_record_of model fields) models →
  xl_title (Dict.keys (Excel.workbook (Excel._get_workbook self w).2))
    (get_class_sheet_name model) →
  (Excel.insert_many self models w).1 = Ok () ∧
  (Excel.get_all self model None (Excel.insert_many self models w).2).1
  = Ok models.
Proof.
  intros (Hfields & Hcolumns & Hback) _ Hne Hrecs Htitle.
  apply (xl_insert_then_get_all self model fields Hfields Hcolumns
           (proj1 (Forall_forall _ _) Hback) models w Hne).
  - eapply Forall_impl; [exact Hrecs|]. by intros m (? & ? & _).
  - by apply xl_title_fresh.
Qed.

Lemma excel_insert_many_then_get_all_witness :
  (Excel.insert_many Examples.xdb [Examples.alice; Examples.bob]
     Examples.empty_disk).1 = Ok () ∧
  (Excel.get_all Examples.xdb Examples.User None
     (Excel.insert_many Examples.xdb [Examples.alice; Examples.bob]
        Examples.empty_disk).2).1
  = Ok [Examples.alice; Examples.bob].
Proof.
  apply (excel_insert_many_then_get_all Examples.xdb Examples.User
           ["id"; "name"; "email"] [Examples.alice; Examples.bob]
           Examples.empty_disk).
  - exact user_well_mapped.
  - repeat constructor; by vm_compute.
  - done.
  - repeat constructor; by vm_compute.
  - repeat constructor; by vm_compute.
Defined.
(** ** Reading from a workbook *)

Section excel_read.
Implicit Types (self : Excel.ExcelDB) (model : ModelType) (w : Excel.world).
Implicit Types (filters : dict string value) (data : list SheetModel).

Lemma xl_get_workbook_eq self w :
  Excel._get_workbook self w = (Ok (), xl_loaded self w).
Proof.
  unfold xl_loaded, Excel._get_workbook.
  destruct (Excel._workbook w); [done|].
  by destruct (Excel.files w !! Excel.file_path self).
Qed.

Lemma xl_loaded_workbook self w : is_Some (Excel._workbook (xl_loaded self w)).
Proof.
  unfold xl_loaded, Excel._get_workbook.
  destruct (Excel._workbook w) eqn:Hwb; cbn [snd]; [by rewrite Hwb|].
  by destruct (Excel.files w !! Excel.file_path self).
Qed.

(** Loading is done once. *)
Lemma xl_loaded_idem self w :
  is_Some (Excel._workbook w) → xl_loaded self w = w.
Proof.
  intros [wb Hwb]. unfold xl_loaded, Excel._get_workbook. by rewrite Hwb.
Qed.

Lemma xl_get_worksheet_found self (name : string) headers w :
  name ∈ Dict.keys (Excel.workbook w) →
  Excel._get_worksheet self name headers w = (Ok name, w).
Proof.
  intros Hin. unfold Excel._get_worksheet. unfold_monad.
  by rewrite bool_decide_eq_true_2.
Qed.

Lemma xl_get_worksheet_missing self (name : string) w :
  name ∉ Dict.keys (Excel.workbook w) →
  Excel._get_worksheet self name None w = (Raise ValueError, w).
Proof.
  intros Hin. unfold Excel._get_worksheet. unfold_monad.
  by rewrite bool_decide_eq_false_2.
Qed.

Lemma xl_get_headers_eq self (name : string) w :
  Excel._get_headers self name name w
  = (Ok (xl_headers name w), xl_remember name w).
Proof.
  unfold Excel._get_headers, xl_headers, xl_remember.
  by destruct (Excel.cache_headers w !! name).
Qed.

Lemma xl_remember_workbook (name : string) w :
  Excel._workbook (xl_remember name w) = Excel._workbook w ∧
  Excel.files (xl_remember name w) = Excel.files w ∧
  Excel.cache_headers (xl_remember name w) !! name = Some (xl_headers name w).
Proof.
  unfold xl_remember, xl_headers.
  destruct (Excel.cache_headers w !! name) eqn:Hc; [done|].
  unfold Excel.set_cache. cbn [Excel._workbook Excel.files Excel.cache_headers].
  by rewrite lookup_insert_eq.
Qed.

Lemma xl_get_all_loop model headers (ofilters : option (dict string value))
    (rows : list (list value)) data :
  foldl (Excel.get_all_step model headers ofilters) data rows
  = data ++ filter (λ item, keeps ofilters item)
              (omap (xl_parse model headers) rows).
Proof.
  revert data. induction rows as [|row rows IH]; intros data; simpl.
  - by rewrite app_nil_r.
  - rewrite IH. unfold Excel.get_all_step, keeps. fold (xl_parse model headers row).
    destruct (xl_parse model headers row) as [item|]; [|done].
    rewrite filter_cons.
    destruct (truthy ofilters).
    + destruct (matches item (default [] ofilters)).
      * rewrite decide_True by done. by rewrite <- app_assoc.
      * rewrite decide_False; [done | by intros []].
    + rewrite decide_True by done. by rewrite <- app_assoc.
Qed.

(** [get_all] in closed form: the workbook is loaded; the sheet has to be
    there; the header row is resolved and remembered; the rows that parse
    are the records. *)
Lemma xl_get_all_eq self model (ofilters : option (dict string value)) w :
  let name := get_class_sheet_name model in
  let w0 := xl_loaded self w in
  Excel.get_all self model ofilters w
  = if bool_decide (name ∈ Dict.keys (Excel.workbook w0))
    then (Ok (filter (λ item, keeps ofilters item) (xl_stored model w0)),
          xl_remember name w0)
    else (Raise ValueError, w0).
Proof.
  intros name w0. unfold Excel.get_all. cbv zeta. fold name.
  rewrite (bind_Ok _ _ _ _ _ (xl_get_workbook_eq self w)). fold w0.
  case_bool_decide as Hin.
  - rewrite (bind_Ok _ _ _ _ _ (xl_get_worksheet_found self name None w0 Hin)).
    rewrite (bind_Ok _ _ _ _ _ (xl_get_headers_eq self name w0)).
    unfold bind, gets, ret. rewrite xl_get_all_loop. cbn [app].
    do 3 f_equal. unfold xl_stored, xl_sheet. fold name.
    unfold Excel.workbook.
    by destruct (xl_remember_workbook name w0) as (-> & _ & _).
  - unfold bind at 1. by rewrite (xl_get_worksheet_missing self name w0 Hin).
Qed.

Lemma xl_first_match_head filters data :
  Excel.first_match filters data
  = head (filter (λ item, matches item filters) data).
Proof.
  induction data as [|item data IH]; simpl; [done|].
  rewrite filter_cons. destruct (matches item filters) eqn:Hm.
  - by rewrite decide_True by done.
  - rewrite decide_False; [done | by intros []].
Qed.

Lemma keeps_None data : filter (λ item, keeps None item) data = data.
Proof. by apply filter_all_true. Qed.

Lemma keeps_Some filters data :
  filter (λ item, keeps (Some filters) item) data
  = filter (λ item, matches item filters) data.
Proof.
  unfold keeps. destruct filters as [|kv filters]; simpl; [|done].
  by rewrite !filter_all_true.
Qed.

End excel_read.

(** X23. [get_all] of the workbook adapter with filters has the effects of
    [get_all] without them (the workbook is loaded, the header row is
    remembered) and returns the records that one returns which satisfy every
    filter equality, in the same order; it raises when that one raises. *)
Theorem excel_get_all_filters (self : Excel.ExcelDB) (model : ModelType)
    (filters : dict string value) (w : Excel.world) :
  Excel.get_all self model (Some filters) w
  = (match (Excel.get_all self model None w).1 with
     | Ok data => Ok (filter (λ item, matches item filters) data)
     | Raise e => Raise e
     end, (Excel.get_all self model None w).2).
Proof.
  rewrite !xl_get_all_eq. case_bool_decide; [|done].
  cbn [fst snd]. by rewrite keeps_None, keeps_Some.
Qed.

(** X24. [get_one] of the workbook adapter has the effects of [get_all];
    it returns the first record of [get_all] with the same filters, and
    raises [NotFoundError] exactly when there is none (and [ValueError] when
    the sheet is missing). *)
Theorem excel_get_one_by_get_all (self : Excel.ExcelDB) (model : ModelType)
    (filters : dict string value) (w : Excel.world) :
  Excel.get_one self model filters w
  = (match (Excel.get_all self model (Some filters) w).1 with
     | Ok [] => Raise NotFoundError
     | Ok (item :: _) => Ok item
     | Raise e => Raise e
     end, (Excel.get_all self model (Some filters) w).2).
Proof.
  unfold Excel.get_one, bind. rewrite !xl_get_all_eq.
  case_bool_decide; [|done]. cbn [fst snd].
  rewrite keeps_None, keeps_Some, xl_first_match_head.
  by destruct (filter _ (xl_stored model (xl_loaded self w))).
Qed.
(** ** Writing the cells of a row *)

Section excel_cells.
Implicit Types (v : value) (r pre rest values : list value).
Implicit Types (ws : list (list value)).

Lemma cell_in_row_at pre rest v :
  Excel.cell_in_row (S (length pre)) v (pre ++ rest)
  = (pre ++ [match v with
             | VNone => default VNone (head rest)
             | _ => v
             end]) ++ tail rest.
Proof.
  unfold Excel.cell_in_row. rewrite length_app. destruct rest as [|c rest].
  - replace (S (length pre) - (length pre + length (@nil value))) with 1
      by (simpl; lia).
    rewrite app_nil_r. cbn [replicate head tail default pred].
    rewrite app_nil_r.
    destruct v; [done|..];
      by rewrite (insert_app_r_alt pre [VNone] (length pre)), Nat.sub_diag
        by lia.
  - replace (S (length pre) - (length pre + length (c :: rest))) with 0
      by (simpl; lia).
    cbn [replicate head tail default pred]. rewrite app_nil_r, <- app_assoc.
    destruct v; [done|..];
      by rewrite (insert_app_r_alt pre (c :: rest) (length pre)), Nat.sub_diag
        by lia.
Qed.

(** The cells of a row written from left to right. *)
Lemma write_row pre rest values :
  foldl (λ r cv, Excel.cell_in_row cv.1 cv.2 r) (pre ++ rest)
    (zip (seq (S (length pre)) (length values)) values)
  = pre ++ overwrite values rest.
Proof.
  revert pre rest. induction values as [|v values IH]; intros pre rest.
  - done.
  - cbn [length seq zip zip_with foldl fst snd overwrite].
    rewrite cell_in_row_at.
    replace (S (S (length pre))) with (S (length (pre ++ [match v with
       | VNone => default VNone (head rest) | _ => v end])))
      by (rewrite length_app; simpl; lia).
    rewrite IH. by rewrite <- app_assoc.
Qed.

Lemma alter_alter {A} (f g : A → A) (i : nat) (l : list A) :
  alter f i (alter g i l) = alter (f ∘ g) i l.
Proof. revert i. induction l; intros [|?]; f_equal/=; auto. Qed.

Lemma foldl_alter {A B} (g : B → A → A) (i : nat) (l : list A) (bs : list B) :
  foldl (λ l b, alter (g b) i l) l bs
  = alter (λ x, foldl (λ x b, g b x) x bs) i l.
Proof.
  revert l. induction bs as [|b bs IH]; intros l; simpl.
  - symmetry. by apply list_alter_id.
  - rewrite IH. apply alter_alter.
Qed.

Lemma cell_row (n column : nat) v ws :
  n < length ws →
  Excel.cell (S n) column v ws = alter (Excel.cell_in_row column v) n ws.
Proof.
  intros Hn. unfold Excel.cell.
  replace (S n - length ws) with 0 by lia.
  cbn [replicate pred]. by rewrite app_nil_r.
Qed.

(** [write_cells] on a row the sheet has: the row is overwritten, the other
    rows stay. *)
Lemma write_cells_row (n : nat) values ws :
  n < length ws →
  Excel.write_cells (S n) values ws = alter (overwrite values) n ws.
Proof.
  intros Hn. unfold Excel.write_cells.
  transitivity (foldl (λ ws cv, alter (Excel.cell_in_row cv.1 cv.2) n ws) ws
                  (zip (seq 1 (length values)) values)).
  - generalize (zip (seq 1 (length values)) values) as cvs.
    intros cvs. revert ws Hn. induction cvs as [|cv cvs IH]; intros ws Hn.
    + done.
    + cbn [foldl]. rewrite (cell_row n cv.1 cv.2 ws Hn).
      apply IH. by rewrite length_alter.
  - rewrite (foldl_alter (λ cv, Excel.cell_in_row cv.1 cv.2)).
    apply list_alter_ext; [|done]. intros r _.
    apply (write_row [] r values).
Qed.

End excel_cells.

(** ** [update] and [delete_all] on a workbook *)

Section excel_update.
Implicit Types (self : Excel.ExcelDB) (model : ModelType) (w : Excel.world).
Implicit Types (filters : dict string value) (data : list SheetModel).

Lemma find_match_first filters (idx : nat) before item after :
  Forall (λ item, ¬ matches item filters) before →
  matches item filters →
  Excel.find_match filters idx (before ++ item :: after)
  = Some (idx + length before, item).
Proof.
  intros Hbefore Hitem. revert idx.
  induction Hbefore as [|item0 before Hno _ IH]; intros idx; simpl.
  - destruct (matches item filters); [|done]. by rewrite Nat.add_0_r.
  - destruct (matches item0 filters); [done|].
    rewrite IH. by replace (S idx + length before)
      with (idx + S (length before)) by lia.
Qed.

Lemma find_match_None filters (idx : nat) data :
  Forall (λ item, ¬ matches item filters) data →
  Excel.find_match filters idx data = None.
Proof.
  intros Hno. revert idx.
  induction Hno as [|item data Hm _ IH]; intros idx; simpl; [done|].
  by destruct (matches item filters).
Qed.

Lemma length_omap_le {A B} (f : A → option B) (l : list A) :
  length (omap f l) ≤ length l.
Proof.
  induction l as [|x l IH]; [done|]. cbn [omap list_omap].
  destruct (f x); cbn [length]; lia.
Qed.

(** What a successful [get_all] tells. *)
Lemma xl_get_all_Ok self model w data w1 :
  Excel.get_all self model None w = (Ok data, w1) →
  let name := get_class_sheet_name model in
  name ∈ Dict.keys (Excel.workbook w1) ∧
  is_Some (Excel._workbook w1) ∧
  Excel.cache_headers w1 !! name = Some (xl_headers name (xl_loaded self w)) ∧
  data = xl_stored model (xl_loaded self w) ∧
  length data ≤ length (drop 1 (xl_sheet name w1)).
Proof.
  intros Hall name. rewrite xl_get_all_eq in Hall. fold name in Hall.
  case_bool_decide as Hin; [|done]. rewrite keeps_None in Hall.
  injection Hall as <- <-.
  destruct (xl_remember_workbook name (xl_loaded self w)) as (Hwb & _ & Hc).
  unfold xl_sheet, Excel.workbook. rewrite Hwb.
  split; [done|]. split; [apply xl_loaded_workbook|]. split; [done|].
  split; [done|].
  unfold xl_stored. fold name.
  etransitivity; [apply length_omap_le|].
  unfold Excel.rows_from_2, xl_sheet, Excel.workbook.
  by rewrite length_fmap.
Qed.


(** [update] in closed form, when it finds a record and assigns it. *)
Lemma xl_update_found self model filters update_data w w1
    before item after item' (mapped_row : list value) :
  let name := get_class_sheet_name model in
  Excel.get_all self model None w = (Ok (before ++ item :: after), w1) →
  Forall (λ item, ¬ matches item filters) before →
  matches item filters →
  setattrs item update_data = Ok item' →
  Excel.attrs_of model item' (default [] (Excel.cache_headers w1 !! name))
  = Ok mapped_row →
  let wb := Excel.workbook w1 in
  let wb' := Dict.set wb name
               (alter (overwrite mapped_row) (S (length before))
                  (Dict.get_default wb name [])) in
  Excel.update self model filters update_data w
  = (Ok item',
     Excel.mkWorld (<[Excel.file_path self := wb']> (Excel.files w1))
       (Excel.cache_headers w1) (Some wb')).
Proof.
  intros name Hall Hbefore Hitem Hset Hattrs wb wb'.
  destruct (xl_get_all_Ok self model w _ w1 Hall)
    as (Hin & Hwb1 & Hc & _ & Hlen).
  fold name in Hin, Hc, Hlen. rewrite Hc in Hattrs.
  change (default [] (Some ?x)) with x in Hattrs.
  unfold Excel.update. cbv zeta. fold name.
  rewrite (bind_Ok _ _ _ _ _ Hall).
  rewrite (find_match_first filters 0 before item after Hbefore Hitem).
  rewrite Hset. rewrite (bind_Ok _ _ w1 w1 item') by done.
  rewrite (bind_Ok _ _ w1 w1 ()).
  2:{ rewrite xl_get_workbook_eq. by rewrite xl_loaded_idem. }
  rewrite (bind_Ok _ _ _ _ _ (xl_get_worksheet_found self name None w1 Hin)).
  rewrite (bind_Ok _ _ w1 w1 (xl_headers name (xl_loaded self w))).
  2:{ rewrite xl_get_headers_eq. unfold xl_headers, xl_remember.
      by rewrite Hc. }
  rewrite Hattrs. rewrite (bind_Ok _ _ w1 w1 mapped_row) by done.
  unfold Excel.save, Excel.set_workbook. unfold_monad.
  cbn [Excel.files Excel.cache_headers Excel._workbook].
  rewrite xl_workbook_loaded. fold wb.
  replace (0 + length before + 2) with (S (S (length before))) by lia.
  rewrite write_cells_row; [done|].
  rewrite length_app, length_drop in Hlen. simpl in Hlen.
  unfold xl_sheet in Hlen. fold wb in Hlen. lia.
Qed.

End excel_update.

Section excel_write.
Implicit Types (self : Excel.ExcelDB) (model : ModelType) (w : Excel.world).
Implicit Types (filters : dict string value) (data : list SheetModel).




(** [delete_all] in closed form. *)
Lemma xl_delete_all_eq self model w :
  let name := get_class_sheet_name model in
  let w0 := xl_loaded self w in
  let wb := Excel.workbook w0 in
  let wb' := Dict.set wb name (take 1 (Dict.get_default wb name [])) in
  Excel.delete_all self model w
  = if bool_decide (name ∈ Dict.keys wb) then
      if bool_decide (drop 1 (Dict.get_default wb name []) = [])
      then (Ok (), w0)
      else (Ok (),
            Excel.mkWorld (<[Excel.file_path self := wb']> (Excel.files w0))
              (Excel.cache_headers w0) (Some wb'))
    else (Raise ValueError, w0).
Proof.
  intros name w0 wb wb'. unfold Excel.delete_all. cbv zeta. fold name.
  rewrite (bind_Ok _ _ _ _ _ (xl_get_workbook_eq self w)). fold w0.
  case_bool_decide as Hin.
  - rewrite (bind_Ok _ _ _ _ _ (xl_get_worksheet_found self name None w0 Hin)).
    unfold bind at 1, gets. fold wb.
    case_bool_decide; [done|].
    unfold Excel.save, Excel.set_workbook. unfold_monad.
    cbn [Excel.files Excel.cache_headers Excel._workbook].
    by rewrite xl_workbook_loaded.
  - unfold bind at 1. by rewrite (xl_get_worksheet_missing self name w0 Hin).
Qed.

End excel_write.
(** ** A sheet that holds the records of a model *)

Section excel_table.
Variables (self : Excel.ExcelDB) (model : ModelType) (fields : list string).
Let field_map := class_field_map model.
Let header := mapped_name field_map <$> fields.
Let name := get_class_sheet_name model.

Hypothesis Hfields : fields ≠ [].
Hypothesis Hcolumns : NoDup header.
Hypothesis Hback : ∀ k, k ∈ fields →
  Dict.get_default (generate_field_map model)
    (mapped_name field_map k) (mapped_name field_map k) = k.

Implicit Types (m item : SheetModel) (data : list SheetModel).
Implicit Types (w : Excel.world).



Lemma xl_loaded_cache w :
  Excel.cache_headers (xl_loaded self w) = Excel.cache_headers w.
Proof.
  unfold xl_loaded, Excel._get_workbook.
  destruct (Excel._workbook w); [done|].
  by destruct (Excel.files w !! Excel.file_path self).
Qed.











End excel_table.
(** ** The workbook adapter: writing and reading back *)


(** X25. When [update] of the workbook adapter finds a record and assigns
    it, it writes the record's values over the first cells of the row
    numbered (position of the record among the parsed records) + 2, except
    that a [None] leaves the cell as it was; every other row stays, and the
    workbook is saved.  (When an earlier row did not parse, that row is not
    the row of the record.) *)
Theorem excel_update_writes_row (self : Excel.ExcelDB) (model : ModelType)
    (filters update_data : dict string value) (w w1 : Excel.world)
    (before after : list SheetModel) (item item' : SheetModel)
    (mapped_row : list value) :
  let name := get_class_sheet_name model in
  Excel.get_all self model None w = (Ok (before ++ item :: after), w1) →
  Forall (λ item, ¬ matches item filters) before →
  matches item filters →
  setattrs item update_data = Ok item' →
  Excel.attrs_of model item' (default [] (Excel.cache_headers w1 !! name))
  = Ok mapped_row →
  Forall xl_value mapped_row →
  let wb := Excel.workbook w1 in
  let wb' := Dict.set wb name
               (alter (overwrite mapped_row) (S (length before))
                  (Dict.get_default wb name [])) in
  Excel.update self model filters update_data w
  = (Ok item',
     Excel.mkWorld (<[Excel.file_path self := wb']> (Excel.files w1))
       (Excel.cache_headers w1) (Some wb')).
Proof.
  intros name Hall Hbefore Hitem Hset Hattrs _ wb wb'.
  by apply (xl_update_found self model filters update_data w w1 before item
              after item' mapped_row).
Qed.

Lemma excel_update_writes_row_witness :
  let w1 := (Excel.get_all Examples.xdb Examples.User None
               Examples.users_book).2 in
  let wb := Excel.workbook w1 in
  let wb' := Dict.set wb "Users"
               (alter (overwrite [VInt 1; VStr "Alicia"; VNone]) 2
                  (Dict.get_default wb "Users" [])) in
  Excel.update Examples.xdb Examples.User [("id", VInt 1)]
    [("name", VStr "Alicia"); ("email", VNone)] Examples.users_book
  = (Ok (mkSheetModel "Users" (class_field_map Examples.User)
           [("id", VInt 1); ("name", VStr "Alicia"); ("email", VNone)]),
     Excel.mkWorld (<["book.xlsx" := wb']> (Excel.files w1))
       (Excel.cache_headers w1) (Some wb')).
Proof.
  apply (excel_update_writes_row Examples.xdb Examples.User [("id", VInt 1)]
           [("name", VStr "Alicia"); ("email", VNone)] Examples.users_book
           (Excel.get_all Examples.xdb Examples.User None Examples.users_book).2
           [Examples.bob] [] Examples.alice).
  - vm_compute; reflexivity.
  - repeat constructor. vm_compute. intros [].
  - by vm_compute.
  - vm_compute; reflexivity.
  - vm_compute; reflexivity.
  - repeat constructor; by vm_compute.
Defined.



(** X27. [delete_all] of the workbook adapter, on a workbook that has the
    sheet of the model: the call returns, the sheet keeps its first row and
    nothing else, the other sheets and the header cache stay as they were,
    and [get_all] then returns the empty sequence whatever the filters. *)
Theorem excel_delete_all_then_get_all (self : Excel.ExcelDB)
    (model : ModelType) (filters : option (dict string value))
    (w : Excel.world) :
  let name := get_class_sheet_name model in
  let wb := Excel.workbook (Excel._get_workbook self w).2 in
  name ∈ Dict.keys wb →
  let w' := (Excel.delete_all self model w).2 in
  (Excel.delete_all self model w).1 = Ok () ∧
  Dict.get_default (Excel.workbook w') name []
  = take 1 (Dict.get_default wb name []) ∧
  (∀ other, other ≠ name →
     Dict.get (Excel.workbook w') other = Dict.get wb other) ∧
  Excel.cache_headers w' = Excel.cache_headers w ∧
  (Excel.get_all self model filters w').1 = Ok [].
Proof.
  intros name wb Hin w'. subst w'. fold (xl_loaded self w) in wb.
  rewrite xl_delete_all_eq. fold name wb.
  rewrite bool_decide_eq_true_2 by done.
  assert (Hread : ∀ w1, is_Some (Excel._workbook w1) →
            name ∈ Dict.keys (Excel.workbook w1) →
            drop 1 (Dict.get_default (Excel.workbook w1) name []) = [] →
            (Excel.get_all self model filters w1).1 = Ok []).
  { intros w1 Hwb1 Hin1 Hrows. rewrite xl_get_all_eq. fold name.
    rewrite (xl_loaded_idem self w1 Hwb1).
    rewrite bool_decide_eq_true_2 by done. cbn [fst].
    unfold xl_stored, Excel.rows_from_2, xl_sheet. fold name.
    by rewrite Hrows. }
  case_bool_decide as Hrows; cbn [fst snd].
  - split; [done|]. split.
    + fold wb. destruct (Dict.get_default wb name []) as [|r [|r' sheet]];
        done.
    + split; [done|]. split; [apply xl_loaded_cache|].
      apply Hread; [apply xl_loaded_workbook | done | done].
  - split; [done|]. rewrite xl_workbook_loaded. split.
    + by rewrite dict_get_default_set.
    + split; [intros other Hother; by rewrite dict_get_set_ne|].
      split; [apply xl_loaded_cache|].
      apply Hread; [by cbn; eauto | |].
      * rewrite xl_workbook_loaded. apply dict_keys_set_elem.
      * rewrite xl_workbook_loaded, dict_get_default_set.
        by destruct (Dict.get_default wb name []).
Qed.

Lemma excel_delete_all_then_get_all_witness :
  let wb := Excel.workbook (Excel._get_workbook Examples.xdb
                              Examples.users_book).2 in
  let w' := (Excel.delete_all Examples.xdb Examples.User
               Examples.users_book).2 in
  (Excel.delete_all Examples.xdb Examples.User Examples.users_book).1 = Ok () ∧
  Dict.get_default (Excel.workbook w') "Users" []
  = take 1 (Dict.get_default wb "Users" []) ∧
  (∀ other, other ≠ "Users" →
     Dict.get (Excel.workbook w') other = Dict.get wb other) ∧
  Excel.cache_headers w' = Excel.cache_headers Examples.users_book ∧
  (Excel.get_all Examples.xdb Examples.User None w').1 = Ok [].
Proof.
  apply (excel_delete_all_then_get_all Examples.xdb Examples.User None
           Examples.users_book).
  vm_compute. apply list_elem_of_further, list_elem_of_here.
Defined.




(** ** The errors of the package *)

(** X30. An error never has an empty code: the code given is kept when it
    is not empty, and the default of the class stands in for an absent or
    empty one; the argument of the exception is its message; and the
    message of an error raised without a code tells the class and the
    detail apart: two such errors with the same message have the same class
    and the same detail. *)
Theorem error_code_and_message (cls cls' : Exceptions.error_class)
    (detail detail' : string) (code : option string) :
  let e := Exceptions.__init__ cls detail code in
  Exceptions.code e ≠ "" ∧
  (Exceptions.code e
   = match code with
     | Some (String c s) => String c s
     | _ => Exceptions.default_code cls
     end) ∧
  Exceptions.args e = [Exceptions.__str__ e] ∧
  (Exceptions.__str__ (Exceptions.__init__ cls detail None)
   = Exceptions.__str__ (Exceptions.__init__ cls' detail' None) →
   cls = cls' ∧ detail = detail').
Proof.
  intros e. subst e. split; [|split; [|split; [done|]]].
  - destruct code as [[|c s]|]; simpl; [by destruct cls | done | by destruct cls].
  - by destruct code as [[|c s]|].
  - unfold Exceptions.__str__, Exceptions.__init__, Exceptions.message.
    cbn [Exceptions.code Exceptions.detail].
    destruct cls, cls'; cbn; intros Heq; by simplify_eq.
Qed.
